(** * file_renamer.py: a shallow embedding and its verified properties

    The program prefixes a file's name with its creation time
    ([yymmdd_hhmmss_]) and moves or copies it into a destination directory,
    inserting a numbered suffix when the name is taken.

    Conventions of the embedding:
    - a path is the list of its components, resolved against one root;
      [destination_dir / new_filename] is [destination_dir ++ [new_filename]];
      the tree holds regular files and directories only (no symbolic links)
      and is permissive (no permission or device errors);
    - Python [str] is [string] (bytes); [str.lower] is the ASCII lowering;
    - the file system is a finite map from paths to nodes, the log stream a
      list of records kept next to it (the sinks configured by
      [setup_logging] are outside the modelled tree);
    - times are stored already broken down to local calendar fields, which
      is what [datetime.fromtimestamp] hands to [strftime]. *)

From Stdlib Require Import Ascii.
From stdpp Require Import gmap strings list sorting fin_maps fin_sets.

(** ** Strings *)

Module Str.

(** [c * n], the character [c] repeated [n] times. *)
Fixpoint repeat (c : ascii) (n : nat) : string :=
  match n with
  | 0 => ""
  | S n' => String c (repeat c n')
  end.

(** [s.lower()] on ASCII: the letters A..Z are moved to a..z. *)
Definition lower_char (c : ascii) : ascii :=
  let n := nat_of_ascii c in
  if (65 <=? n) && (n <=? 90) then ascii_of_nat (n + 32) else c.

Fixpoint lower (s : string) : string :=
  match s with
  | "" => ""
  | String c s' => String (lower_char c) (lower s')
  end.

(** [c in s]. *)
Fixpoint mem (c : ascii) (s : string) : bool :=
  match s with
  | "" => false
  | String x s' => Ascii.eqb c x || mem c s'
  end.

(** [s.rsplit('.', 1)]: [Some (base, ext)] when the split has two parts, the
    cut being at the last dot; [None] when [s] has no dot (one part). *)
Fixpoint rsplit_dot (s : string) : option (string * string) :=
  match s with
  | "" => None
  | String c s' =>
      match rsplit_dot s' with
      | Some (b, e) => Some (String c b, e)
      | None => if Ascii.eqb c "."%char then Some ("", s') else None
      end
  end.

End Str.

(** ** Integer formatting: [str(n)] and the [0w d] format specification *)

Module Fmt.

Definition digit_char (d : nat) : ascii := ascii_of_nat (48 + d).

(** The decimal digits of [n], most significant first, put in front of
    [acc]; [fuel] bounds the number of digits produced. *)
Fixpoint digits_go (fuel n : nat) (acc : string) : string :=
  match fuel with
  | 0 => acc
  | S fuel' =>
      let acc' := String (digit_char (n mod 10)) acc in
      if n / 10 =? 0 then acc' else digits_go fuel' (n / 10) acc'
  end.

(** [str(n)] for a non-negative integer. *)
Definition decimal (n : nat) : string := digits_go (S n) n "".

(** [s.zfill(w)] for a digit string: zeros on the left up to width [w],
    nothing when [s] is already that wide. *)
Definition zfill (w : nat) (s : string) : string :=
  Str.repeat "0" (w - String.length s) +:+ s.

(** [f"{n:0wd}"]. *)
Definition format_0d (w n : nat) : string := zfill w (decimal n).

(** Reading a digit string back. *)
Definition digit_val (c : ascii) : nat := nat_of_ascii c - 48.

Fixpoint value_acc (s : string) (a : nat) : nat :=
  match s with
  | "" => a
  | String c s' => value_acc s' (10 * a + digit_val c)
  end.

(** Below [10^w] the field is exactly [w] digits wide: the two-digit and
    three-digit layouts, digit by digit. *)
Definition two_digits (n : nat) : string :=
  String (digit_char (n / 10)) (String (digit_char (n mod 10)) "").

Definition three_digits (n : nat) : string :=
  String (digit_char (n / 100))
    (String (digit_char (n / 10 mod 10)) (String (digit_char (n mod 10)) "")).

End Fmt.

(** ** Data model *)

(** A [datetime], as [datetime.fromtimestamp] returns it. *)
Record datetime := {
  year : nat; month : nat; day : nat;
  hour : nat; minute : nat; second : nat
}.

(** The field ranges of a [datetime] object that the prefix depends on
    (the year, between 1 and 9999, enters modulo 100 only). *)
Definition valid_datetime (dt : datetime) : Prop :=
  1 ≤ month dt ≤ 12 ∧ 1 ≤ day dt ≤ 31 ∧
  hour dt < 24 ∧ minute dt < 60 ∧ second dt < 60.

(** What [os.stat] returns, as far as the program reads it.
    [st_birthtime] is [None] where the platform has no such attribute. *)
Record stat_result := {
  st_birthtime : option datetime;
  st_ctime : datetime
}.

Inductive node :=
  | File (content : list Byte.byte) (st : stat_result)
  | Dir (st : stat_result).

Definition node_stat (nd : node) : stat_result :=
  match nd with File _ st => st | Dir st => st end.

Abbreviation path := (list string).
Abbreviation FileSystem := (gmap (list string) node).

(** [destination_dir / new_filename]. *)
Notation "d </> n" := (d ++ [n]) (at level 50, left associativity).

(** [p.name] and [p.parent]. *)
Definition name (p : path) : string := default "" (last p).
Definition parent (p : path) : path := removelast p.



(** [p.suffix]: with [i] the index of the last dot of the name, the name
    from [i] on when [0 < i < len(name) - 1], the empty string otherwise. *)
Definition suffix (p : path) : string :=
  match Str.rsplit_dot (name p) with
  | Some (b, e) =>
      if bool_decide (b = "") || bool_decide (e = "") then ""
      else "." +:+ e
  | None => ""
  end.

Definition is_file (fs : FileSystem) (p : path) : bool :=
  match fs !! p with Some (File _ _) => true | _ => false end.

Definition is_dir (fs : FileSystem) (p : path) : bool :=
  match fs !! p with Some (Dir _) => true | _ => false end.

Definition exists_ (fs : FileSystem) (p : path) : bool :=
  bool_decide (is_Some (fs !! p)).

(** What depends on the host: the times it gives to an object it creates
    and to one it renames, and the order in which it lists a directory. *)
Record Platform := {
  fresh_stat : FileSystem → stat_result;
  moved_stat : FileSystem → stat_result → stat_result;
  scandir : FileSystem → path → list string;
  scandir_spec : ∀ fs d n, n ∈ scandir fs d ↔ is_Some (fs !! (d </> n));
  scandir_NoDup : ∀ fs d, NoDup (scandir fs d)
}.

Inductive Exception :=
  | FileExistsError
  | FileNotFoundError
  | NotADirectoryError
  | IsADirectoryError
  | ShutilError.

(** The third component of the tuple [rename_file] returns. *)
Inductive ErrorMessage :=
  | CouldNotRetrieve
    (* "Could not retrieve file creation time" *)
  | ErrorProcessing (source_path : path) (e : Exception).
    (* f"Error processing {source_path}: {e}" *)

Inductive Level := INFO | WARNING | ERROR.

(** The log lines of the program, one constructor per format string. *)
Inductive Message :=
  | ErrorGettingCreationTime (file_path : path) (e : Exception)
  | Copied (source_name new_filename : string)
  | Moved (source_name new_filename : string)
  | Failure (error_msg : ErrorMessage)
  | InputDirMissing (input_dir : path)
  | NoFilesFound
  | FoundFiles (n : nat)
  | FailedToProcess (file_name : string) (error : option ErrorMessage)
  | ProcessingComplete (success_count error_count : nat)
  | Starting
  | FileDoesNotExist (file : string)
  | SuccessfullyProcessed (new_name : option string)
  | FailedToProcessFile (error : option ErrorMessage)
  | Completed.

Record World := {
  files : FileSystem;
  log : list (Level * Message)
}.

Definition with_files (fs : FileSystem) (w : World) : World :=
  {| files := fs; log := log w |}.

(** ** The monad of the program: state, exceptions, and running on *)

Inductive Outcome (A : Type) :=
  | Returned (a : A) (w : World)
  | Raised (e : Exception) (w : World)
  | Unfinished.
Arguments Returned {A} a w.
Arguments Raised {A} e w.
Arguments Unfinished {A}.

Definition M (A : Type) : Type := World → Outcome A.

#[global] Instance M_ret : MRet M := λ A a w, Returned a w.

#[global] Instance M_bind : MBind M := λ A B f m w,
  match m w with
  | Returned a w' => f a w'
  | Raised e w' => Raised e w'
  | Unfinished => Unfinished
  end.

(** [try: body except Exception as e: handler]. *)
Definition try_except {A} (body : M A) (handler : Exception → M A) : M A :=
  λ w,
  match body w with
  | Returned a w' => Returned a w'
  | Raised e w' => handler e w'
  | Unfinished => Unfinished
  end.

Definition logging (lvl : Level) (msg : Message) : M unit :=
  λ w, Returned () {| files := files w; log := log w ++ [(lvl, msg)] |}.

Definition get_files : M FileSystem := λ w, Returned (files w) w.

(** An operation of the file system that fails or yields the next tree. *)
Definition lift_fs (f : FileSystem → Exception + FileSystem) : M unit :=
  λ w,
  match f (files w) with
  | inl e => Raised e w
  | inr fs' => Returned () (with_files fs' w)
  end.

(** ** The program *)

Section Program.

Variable pf : Platform.

(** *** File-system operations used by the program *)

(** [p.mkdir(parents=True, exist_ok=True)], on the reversed path [rp]:
    [os.mkdir] fails when [p] is there already (accepted if it is a
    directory) or when the parent is not a directory; a missing parent is
    created first, the same way. *)
Fixpoint mkdir_parents (rp : list string) (fs : FileSystem)
  : Exception + FileSystem :=
  let p := rev rp in
  match fs !! p with
  | Some (Dir _) => inr fs
  | Some (File _ _) => inl FileExistsError
  | None =>
      match rp with
      | [] => inr (<[p := Dir (fresh_stat pf fs)]> fs)
      | _ :: rparent =>
          match fs !! rev rparent with
          | Some (Dir _) => inr (<[p := Dir (fresh_stat pf fs)]> fs)
          | Some (File _ _) => inl NotADirectoryError
          | None =>
              match mkdir_parents rparent fs with
              | inr fs' => inr (<[p := Dir (fresh_stat pf fs')]> fs')
              | inl e => inl e
              end
          end
      end
  end.

Definition Path_mkdir (p : path) : M unit := lift_fs (mkdir_parents (rev p)).

Definition os_stat (p : path) : M stat_result :=
  λ w,
  match files w !! p with
  | Some nd => Returned (node_stat nd) w
  | None => Raised FileNotFoundError w
  end.

(** Where [shutil.copy2] and [shutil.move] write: inside [dst] when [dst]
    is a directory, at [dst] otherwise. *)
Definition real_dst (fs : FileSystem) (src dst : path) : path :=
  if is_dir fs dst then dst </> name src else dst.

(** [shutil.copy2(src, dst)]: the content goes to the target, which gets
    the times of a new object. *)
Definition copy2 (src dst : path) (fs : FileSystem) : Exception + FileSystem :=
  match fs !! src with
  | None => inl FileNotFoundError
  | Some (Dir _) => inl IsADirectoryError
  | Some (File data _) =>
      let target := real_dst fs src dst in
      if is_dir fs target then inl IsADirectoryError
      else if negb (is_dir fs (parent target)) then inl FileNotFoundError
      else inr (<[target := File data (fresh_stat pf fs)]> fs)
  end.

Definition shutil_copy2 (src dst : path) : M unit := lift_fs (copy2 src dst).

(** A directory moves with everything below it. *)
Definition rebase (src dst k : path) : path := dst ++ drop (length src) k.

Definition move_tree (src dst : path) (fs : FileSystem) : FileSystem :=
  let inside := filter (λ kv, src `prefix_of` kv.1) fs in
  let outside := filter (λ kv, ¬ src `prefix_of` kv.1) fs in
  list_to_map (prod_map (rebase src dst) id <$> map_to_list inside) ∪ outside.

(** [shutil.move(src, dst)]: refused when [dst] is a directory that has
    the name already, or when a directory would move into itself; a regular
    file replaces what is at the target. *)
Definition move (src dst : path) (fs : FileSystem) : Exception + FileSystem :=
  match fs !! src with
  | None => inl FileNotFoundError
  | Some nd =>
      let target := real_dst fs src dst in
      if is_dir fs dst && exists_ fs target then inl ShutilError
      else if negb (is_dir fs (parent target)) then inl FileNotFoundError
      else
        match nd with
        | File data st =>
            inr (<[target := File data (moved_stat pf fs st)]> (delete src fs))
        | Dir st =>
            if bool_decide (src `prefix_of` dst) then inl ShutilError
            else if is_file fs target then inl FileExistsError
            else inr (move_tree src target
                        (<[src := Dir (moved_stat pf fs st)]> fs))
        end
  end.

Definition shutil_move (src dst : path) : M unit := lift_fs (move src dst).

(** [[f for f in p.iterdir() if f.is_file()]]. *)
Definition iterdir_files (p : path) : M (list path) :=
  λ w,
  match files w !! p with
  | None => Raised FileNotFoundError w
  | Some (File _ _) => Raised NotADirectoryError w
  | Some (Dir _) =>
      Returned (filter (λ f, is_file (files w) f)
                  ((λ n, p </> n) <$> scandir pf (files w) p)) w
  end.

(** *** [get_file_creation_time] *)

Definition get_file_creation_time (file_path : path) : M (option datetime) :=
  try_except
    (stat ← os_stat file_path;
     let creation_time :=
       match st_birthtime stat with
       | Some birth => birth
       | None => st_ctime stat
       end in
     mret (Some creation_time))
    (λ e,
       logging ERROR (ErrorGettingCreationTime file_path e);;
       mret None).

(** *** [format_datetime_prefix]: [dt.strftime("%y%m%d_%H%M%S_")] *)

Definition format_datetime_prefix (dt : datetime) : string :=
  Fmt.format_0d 2 (year dt mod 100) +:+ Fmt.format_0d 2 (month dt) +:+
  Fmt.format_0d 2 (day dt) +:+ "_" +:+
  Fmt.format_0d 2 (hour dt) +:+ Fmt.format_0d 2 (minute dt) +:+
  Fmt.format_0d 2 (second dt) +:+ "_".

(** *** [rename_file] *)

(** The name built in the body of the conflict loop. *)
Definition conflict_name (date_prefix original_name : string) (counter : nat)
  : string :=
  match Str.rsplit_dot original_name with
  | Some (base_name, extension) =>
      date_prefix +:+ base_name +:+ "_" +:+ Fmt.format_0d 3 counter +:+
      "." +:+ extension
  | None =>
      date_prefix +:+ original_name +:+ "_" +:+ Fmt.format_0d 3 counter
  end.

(** [while destination_path.exists(): ...], run for at most [fuel] tests
    of the condition; [None] when the fuel is used up before it is false. *)
Fixpoint while_exists (fuel : nat) (fs : FileSystem) (destination_dir : path)
    (date_prefix original_name new_filename : string) (counter : nat)
  : option (string * nat) :=
  match fuel with
  | 0 => None
  | S fuel' =>
      if exists_ fs (destination_dir </> new_filename) then
        while_exists fuel' fs destination_dir date_prefix original_name
          (conflict_name date_prefix original_name counter) (S counter)
      else Some (new_filename, counter)
  end.

(** The loop as the program runs it: the tree does not change while it
    runs, so one more test than the tree has entries is given as fuel. *)
Definition handle_conflicts (destination_dir : path)
    (date_prefix original_name new_filename : string) : M string :=
  λ w,
  match while_exists (S (size (files w))) (files w) destination_dir
          date_prefix original_name new_filename 1 with
  | Some (new_filename, _) => Returned new_filename w
  | None => Unfinished
  end.

Abbreviation Result := (bool * option string * option ErrorMessage)%type.

Definition rename_file (source_path destination_dir : path)
    (copy_mode : bool) : M Result :=
  try_except
    (Path_mkdir destination_dir;;
     creation_time ← get_file_creation_time source_path;
     match creation_time with
     | None => mret (false, None, Some CouldNotRetrieve)
     | Some creation_time =>
         let date_prefix := format_datetime_prefix creation_time in
         let original_name := name source_path in
         let new_filename := date_prefix +:+ original_name in
         new_filename ← handle_conflicts destination_dir date_prefix
                          original_name new_filename;
         let destination_path := destination_dir </> new_filename in
         (if copy_mode then
            shutil_copy2 source_path destination_path;;
            logging INFO (Copied (name source_path) new_filename)
          else
            shutil_move source_path destination_path;;
            logging INFO (Moved (name source_path) new_filename));;
         mret (true, Some new_filename, None)
     end)
    (λ e,
       let error_msg := ErrorProcessing source_path e in
       logging ERROR (Failure error_msg);;
       mret (false, None, Some error_msg)).

(** *** [process_directory] *)

(** The [for file_path in files] loop with its two counters. *)
Fixpoint for_files (files : list path) (output_path : path)
    (copy_mode : bool) (success_count error_count : nat) : M (nat * nat) :=
  match files with
  | [] => mret (success_count, error_count)
  | file_path :: rest =>
      '(success, new_name, error) ←
        rename_file file_path output_path copy_mode;
      if success : bool then
        for_files rest output_path copy_mode (S success_count) error_count
      else
        logging ERROR (FailedToProcess (name file_path) error);;
        for_files rest output_path copy_mode success_count (S error_count)
  end.

(** The extension filter: applied when [file_extensions] is a non-empty
    list, skipped when it is [None] or empty. *)
Definition filter_extensions (file_extensions : option (list string))
    (files : list path) : list path :=
  match file_extensions with
  | Some ((_ :: _) as exts) =>
      let file_extensions := Str.lower <$> exts in
      filter (λ f, Str.lower (suffix f) ∈ file_extensions) files
  | _ => files
  end.

Definition process_directory (input_path output_path : path)
    (copy_mode : bool) (file_extensions : option (list string)) : M unit :=
  fs ← get_files;
  if negb (exists_ fs input_path) then
    logging ERROR (InputDirMissing input_path)
  else
    files ← iterdir_files input_path;
    let files := filter_extensions file_extensions files in
    match files with
    | [] => logging WARNING NoFilesFound
    | _ =>
        logging INFO (FoundFiles (length files));;
        '(success_count, error_count) ←
          for_files files output_path copy_mode 0 0;
        logging INFO (ProcessingComplete success_count error_count)
    end.

(** *** [main] *)




End Program.

(** ** Notions used to state the properties *)

(** The creation time the program resolves from a [stat] result. *)
Definition resolved_time (st : stat_result) : datetime :=
  match st_birthtime st with
  | Some birth => birth
  | None => st_ctime st
  end.

(** The names the program tries for one file, in the order it tries them:
    the plain prefixed name, then the numbered ones from counter 1 on. *)
Definition tried_name (date_prefix original_name : string) (k : nat) : string :=
  match k with
  | 0 => date_prefix +:+ original_name
  | S _ => conflict_name date_prefix original_name k
  end.

(** The conflict loop as a relation, with no bound on the iterations:
    from the name and counter on the left, the loop stops with those on
    the right. *)
Inductive while_run (fs : FileSystem) (destination_dir : path)
    (date_prefix original_name : string)
  : string → nat → string → nat → Prop :=
  | while_stop new_filename counter :
      exists_ fs (destination_dir </> new_filename) = false →
      while_run fs destination_dir date_prefix original_name
        new_filename counter new_filename counter
  | while_step new_filename counter new_filename' counter' :
      exists_ fs (destination_dir </> new_filename) = true →
      while_run fs destination_dir date_prefix original_name
        (conflict_name date_prefix original_name counter) (S counter)
        new_filename' counter' →
      while_run fs destination_dir date_prefix original_name
        new_filename counter new_filename' counter'.

(** The prefix as the specification words it: two digits each for year,
    month and day, an underscore, two digits each for hour, minute and
    second, an underscore. *)
Definition prefix_layout (dt : datetime) : string :=
  Fmt.two_digits (year dt mod 100) +:+ Fmt.two_digits (month dt) +:+
  Fmt.two_digits (day dt) +:+ "_" +:+
  Fmt.two_digits (hour dt) +:+ Fmt.two_digits (minute dt) +:+
  Fmt.two_digits (second dt) +:+ "_".

(** Every entry of the tree lies in a directory of the tree. *)
Definition tree_shaped (fs : FileSystem) : Prop :=
  ∀ p n, is_Some (fs !! (p </> n)) → is_dir fs p = true.

(** The files [process_directory] hands to its loop: the regular files
    listed in the input directory, after the extension filter. *)
Definition considered (pf : Platform) (fs : FileSystem) (input_path : path)
    (file_extensions : option (list string)) : list path :=
  filter_extensions file_extensions
    (filter (λ f, is_file fs f)
       ((λ n, input_path </> n) <$> scandir pf fs input_path)).

(** What [process_directory] does once its list of files is fixed. *)
Definition process_files (pf : Platform) (batch : list path)
    (output_path : path) (copy_mode : bool) : M unit :=
  match batch with
  | [] => logging WARNING NoFilesFound
  | _ =>
      logging INFO (FoundFiles (length batch));;
      '(success_count, error_count) ←
        for_files pf batch output_path copy_mode 0 0;
      logging INFO (ProcessingComplete success_count error_count)
  end.

(** The log lines that record the outcome of one file of a batch: the
    transfer line of [rename_file] for a success, the line of the batch
    loop for a failure. *)
Definition outcome_of (r : Level * Message) : option (string * bool) :=
  match r.2 with
  | Copied n _ | Moved n _ => Some (n, true)
  | FailedToProcess n _ => Some (n, false)
  | _ => None
  end.

Definition count_true (l : list bool) : nat :=
  length (filter (λ b, b = true) l).
Definition count_false (l : list bool) : nat :=
  length (filter (λ b, b = false) l).

(** The transfer line [rename_file] logs. *)
Definition transfer_line (copy_mode : bool) (source_name new_filename : string)
  : Level * Message :=
  (INFO, if copy_mode then Copied source_name new_filename
         else Moved source_name new_filename).

(** Sources of one batch that share a name and a creation time: regular
    files called [n] whose creation time resolves to [t]. *)
Definition same_name_sources (fs : FileSystem) (n : string) (t : datetime)
    (srcs : list path) : Prop :=
  ∀ s, s ∈ srcs →
    name s = n ∧
    ∃ data st, fs !! s = Some (File data st) ∧ resolved_time st = t.

(** ** A reference platform and sample trees *)

(** The child of [d] that the entry [k] is, if it is one. *)
Definition child_of (d k : path) : option string :=
  match last k with
  | Some n => if bool_decide (k = d </> n) then Some n else None
  | None => None
  end.

Definition sample_time : datetime :=
  {| year := 2025; month := 8; day := 8;
     hour := 14; minute := 30; second := 22 |}.

Definition sample_stat : stat_result :=
  {| st_birthtime := None; st_ctime := sample_time |}.

(** A platform that lists a directory in the order of the map's keys,
    keeps the times of what it renames, and stamps new objects with one
    fixed time. *)
Definition reference_platform : Platform.
Proof.
  refine {|
    fresh_stat := λ _, sample_stat;
    moved_stat := λ _ st, st;
    scandir := λ fs d, elements (set_omap (child_of d) (dom fs) : gset string)
  |}.
  - intros fs d n. rewrite elem_of_elements, elem_of_set_omap. split.
    + intros (k & Hk & Hc). unfold child_of in Hc.
      destruct (last k) as [m|]; [|done]. case_bool_decide; [|done].
      injection Hc as ->. subst k. by apply elem_of_dom.
    + intros H. exists (d </> n). split; [by apply elem_of_dom |].
      unfold child_of. rewrite last_snoc. by rewrite bool_decide_eq_true_2.
  - intros fs d. apply NoDup_elements.
Defined.

Definition sample_file (data : list Byte.byte) : node := File data sample_stat.
Definition sample_dir : node := Dir sample_stat.

(** An input directory with one [report.pdf] and an empty output
    directory. *)
Definition sample_tree : FileSystem :=
  <[ ["in"; "report.pdf"] := sample_file [Byte.x25; Byte.x50] ]>
  (<[ ["in"] := sample_dir ]> (<[ ["out"] := sample_dir ]>
  (<[ [] := sample_dir ]> ∅))).

Definition sample_world : World := {| files := sample_tree; log := [] |}.

(** The same with [250808_143022_report.pdf] already in the output
    directory. *)
Definition collision_tree : FileSystem :=
  <[ ["out"; "250808_143022_report.pdf"] := sample_file [Byte.x31] ]>
  sample_tree.

Definition collision_world : World := {| files := collision_tree; log := [] |}.

(** Three files called [report.pdf], in three directories, and an empty
    output directory. *)
Definition same_name_tree : FileSystem :=
  <[ ["a"; "report.pdf"] := sample_file [Byte.x61] ]>
  (<[ ["b"; "report.pdf"] := sample_file [Byte.x62] ]>
  (<[ ["c"; "report.pdf"] := sample_file [Byte.x63] ]>
  (<[ ["a"] := sample_dir ]> (<[ ["b"] := sample_dir ]>
  (<[ ["c"] := sample_dir ]> (<[ ["out"] := sample_dir ]>
  (<[ [] := sample_dir ]> ∅))))))).

Definition same_name_world : World := {| files := same_name_tree; log := [] |}.

Definition same_name_sources_sample : list path :=
  [["a"; "report.pdf"]; ["b"; "report.pdf"]; ["c"; "report.pdf"]].

(** A file [.bashrc] to place where [250808_143022_.bashrc] is taken. *)
Definition bashrc_tree : FileSystem :=
  <[ ["home"; ".bashrc"] := sample_file [Byte.x23] ]>
  (<[ ["out"; "250808_143022_.bashrc"] := sample_file [] ]>
  (<[ ["home"] := sample_dir ]> (<[ ["out"] := sample_dir ]>
  (<[ [] := sample_dir ]> ∅)))).

Definition bashrc_world : World := {| files := bashrc_tree; log := [] |}.

(** An input directory with [a.txt], [b.pdf], [c.TXT] and a directory
    called [old.txt]. *)
Definition filter_tree : FileSystem :=
  <[ ["in"; "a.txt"] := sample_file [Byte.x61] ]>
  (<[ ["in"; "b.pdf"] := sample_file [Byte.x62] ]>
  (<[ ["in"; "c.TXT"] := sample_file [Byte.x63] ]>
  (<[ ["in"; "old.txt"] := sample_dir ]>
  (<[ ["in"] := sample_dir ]> (<[ ["out"] := sample_dir ]>
  (<[ [] := sample_dir ]> ∅)))))).

Definition filter_world : World := {| files := filter_tree; log := [] |}.


(** [tree_shaped], checked entry by entry. *)
Definition tree_shapedb (fs : FileSystem) : bool :=
  forallb (λ k, match k with [] => true | _ => is_dir fs (parent k) end)
    (map_to_list fs).*1.

(** The sample time, a century earlier. *)
Definition sample_time_1925 : datetime :=
  {| year := 1925; month := 8; day := 8;
     hour := 14; minute := 30; second := 22 |}.

(** The sample tree after [new/deep] has been created in it, and after
    [in/sub] has. *)
Definition sample_tree_new_deep : FileSystem :=
  <[ ["new"; "deep"] := sample_dir ]> (<[ ["new"] := sample_dir ]> sample_tree).

Definition sample_tree_in_sub : FileSystem :=
  <[ ["in"; "sub"] := sample_dir ]> sample_tree.




(** The fields of a datetime in the order the prefix writes them, and
    the comparison of such lists from the left. *)
Definition prefix_key (dt : datetime) : list nat :=
  [year dt mod 100; month dt; day dt; hour dt; minute dt; second dt].

Fixpoint lex_compare (l1 l2 : list nat) : comparison :=
  match l1, l2 with
  | [], [] => Eq
  | [], _ :: _ => Lt
  | _ :: _, [] => Gt
  | a :: l1', b :: l2' =>
      match a ?= b with
      | Eq => lex_compare l1' l2'
      | c => c
      end
  end.

(** A later time in the same century as the sample time. *)
Definition sample_time_later : datetime :=
  {| year := 2025; month := 11; day := 2;
     hour := 9; minute := 5; second := 0 |}.

(** * Facts *)

(** ** Strings *)

Module StrFacts.
Import Str.

Local Arguments Ascii.eqb : simpl never.

Lemma app_nil_l (s : string) : "" +:+ s = s.
Proof. reflexivity. Qed.

Lemma app_cons c (s t : string) : String c s +:+ t = String c (s +:+ t).
Proof. reflexivity. Qed.

Lemma app_assoc (a b c : string) : (a +:+ b) +:+ c = a +:+ (b +:+ c).
Proof.
  induction a as [|x a IH]; [done |]. by rewrite !app_cons, IH.
Qed.

Lemma app_nil_r (a : string) : a +:+ "" = a.
Proof. induction a as [|x a IH]; [done |]. by rewrite app_cons, IH. Qed.

Lemma length_app (a b : string) :
  String.length (a +:+ b) = String.length a + String.length b.
Proof.
  induction a as [|x a IH]; [done |]. rewrite app_cons. simpl. by rewrite IH.
Qed.

Lemma app_inv_head (a b c : string) : a +:+ b = a +:+ c → b = c.
Proof. apply String.app_inj. Qed.

Lemma app_inv_tail (a b c : string) : a +:+ c = b +:+ c → a = b.
Proof.
  revert b. induction a as [|x a IH]; intros [|y b]; [done | | |].
  - intros E. apply (f_equal String.length) in E.
    rewrite app_nil_l, length_app in E. simpl in E. lia.
  - intros E. apply (f_equal String.length) in E.
    rewrite app_nil_l, length_app in E. simpl in E. lia.
  - rewrite !app_cons. intros [= -> E]. f_equal. by apply IH.
Qed.

Lemma length_repeat c n : String.length (repeat c n) = n.
Proof. induction n; simpl; auto. Qed.

Lemma rsplit_dot_None s : rsplit_dot s = None ↔ mem "."%char s = false.
Proof.
  induction s as [|c s IH]; simpl; [done |].
  destruct (rsplit_dot s) as [[b e]|].
  - split; [done |]. intros M. apply orb_false_iff in M as [_ M].
    apply IH in M. done.
  - rewrite (Ascii.eqb_sym c). destruct (Ascii.eqb "."%char c); simpl.
    + split; done.
    + split; [intros _; by apply IH | done].
Qed.

Lemma rsplit_dot_app b e :
  mem "."%char e = false → rsplit_dot (b +:+ "." +:+ e) = Some (b, e).
Proof.
  intros M. induction b as [|x b IH].
  - rewrite app_nil_l. change ("." +:+ e) with (String "."%char e). simpl.
    by rewrite (proj2 (rsplit_dot_None e) M).
  - rewrite app_cons. simpl. by rewrite IH.
Qed.

Lemma rsplit_dot_Some s b e :
  rsplit_dot s = Some (b, e) ↔ s = b +:+ "." +:+ e ∧ mem "."%char e = false.
Proof.
  split; [| intros [-> M]; by apply rsplit_dot_app].
  revert b. induction s as [|c s IH]; intros b; simpl; [done |].
  destruct (rsplit_dot s) as [[b' e']|] eqn:R.
  - intros [= <- <-]. destruct (IH b' eq_refl) as [-> M]. done.
  - destruct (Ascii.eqb_spec c "."%char) as [->|Hc]; [|done].
    intros [= <- <-]. split; [done |]. by apply rsplit_dot_None.
Qed.

End StrFacts.

(** ** Integer formatting *)

Module FmtFacts.
Import Fmt.

Lemma digit_val_char d : d < 10 → digit_val (digit_char d) = d.
Proof.
  intros H. do 10 (destruct d as [|d]; [reflexivity |]). lia.
Qed.

Lemma value_digits_go fuel n acc :
  n < fuel → value_acc (digits_go fuel n acc) 0 = value_acc acc n.
Proof.
  revert n acc. induction fuel as [|fuel IH]; intros n acc Hn; [lia |].
  cbn [digits_go]. pose proof (Nat.div_mod_eq n 10) as E.
  pose proof (Nat.mod_upper_bound n 10 ltac:(lia)) as Hm.
  destruct (Nat.eqb_spec (n / 10) 0) as [Hz|Hz].
  - cbn [value_acc]. rewrite digit_val_char by done. f_equal. lia.
  - rewrite IH by lia. cbn [value_acc]. rewrite digit_val_char by done.
    f_equal. lia.
Qed.

Lemma value_repeat_zero k s a :
  value_acc (Str.repeat "0" k +:+ s) a = value_acc s (a * 10 ^ k).
Proof.
  revert a. induction k as [|k IH]; intros a.
  - simpl Str.repeat. rewrite StrFacts.app_nil_l. f_equal. simpl. lia.
  - simpl Str.repeat. rewrite StrFacts.app_cons. cbn [value_acc].
    rewrite IH. f_equal. change (digit_val "0") with 0.
    rewrite Nat.pow_succ_r'. lia.
Qed.

Lemma value_format_0d w n : value_acc (format_0d w n) 0 = n.
Proof.
  unfold format_0d, zfill, decimal.
  rewrite value_repeat_zero. simpl (0 * _). apply value_digits_go. lia.
Qed.

Lemma format_0d_inj w n m : format_0d w n = format_0d w m → n = m.
Proof.
  intros E. rewrite <- (value_format_0d w n), <- (value_format_0d w m).
  by rewrite E.
Qed.

Lemma format_02d_layout n : n < 100 → format_0d 2 n = two_digits n.
Proof.
  intros H.
  assert (forallb (λ k, String.eqb (format_0d 2 k) (two_digits k))
            (seq 0 100) = true) as A by (vm_compute; reflexivity).
  rewrite forallb_forall in A. apply String.eqb_eq, A, in_seq. lia.
Qed.

Lemma format_03d_layout n : n < 1000 → format_0d 3 n = three_digits n.
Proof.
  intros H.
  assert (forallb (λ k, String.eqb (format_0d 3 k) (three_digits k))
            (seq 0 1000) = true) as A by (vm_compute; reflexivity).
  rewrite forallb_forall in A. apply String.eqb_eq, A, in_seq. lia.
Qed.

End FmtFacts.

(** ** The names tried for one file *)

Section Names.

Implicit Types (date_prefix original_name : string) (k counter : nat).

Lemma conflict_name_with_extension date_prefix base_name extension counter :
  Str.mem "."%char extension = false →
  conflict_name date_prefix (base_name +:+ "." +:+ extension) counter =
  date_prefix +:+ base_name +:+ "_" +:+ Fmt.format_0d 3 counter +:+
  "." +:+ extension.
Proof.
  intros H. unfold conflict_name. by rewrite StrFacts.rsplit_dot_app.
Qed.

Lemma conflict_name_no_dot date_prefix original_name counter :
  Str.mem "."%char original_name = false →
  conflict_name date_prefix original_name counter =
  date_prefix +:+ original_name +:+ "_" +:+ Fmt.format_0d 3 counter.
Proof.
  intros H. unfold conflict_name.
  by rewrite (proj2 (StrFacts.rsplit_dot_None original_name) H).
Qed.

Lemma conflict_name_inj date_prefix original_name k k' :
  conflict_name date_prefix original_name k =
  conflict_name date_prefix original_name k' → k = k'.
Proof.
  unfold conflict_name.
  destruct (Str.rsplit_dot original_name) as [[b e]|]; intros E.
  - do 3 apply StrFacts.app_inv_head in E.
    apply StrFacts.app_inv_tail in E. by apply FmtFacts.format_0d_inj in E.
  - do 3 apply StrFacts.app_inv_head in E.
    by apply FmtFacts.format_0d_inj in E.
Qed.

Lemma plain_name_ne_conflict_name date_prefix original_name k :
  date_prefix +:+ original_name ≠ conflict_name date_prefix original_name k.
Proof.
  unfold conflict_name.
  destruct (Str.rsplit_dot original_name) as [[b e]|] eqn:R; intros E.
  - apply StrFacts.rsplit_dot_Some in R as [-> _].
    do 2 apply StrFacts.app_inv_head in E. discriminate E.
  - apply StrFacts.app_inv_head in E.
    apply (f_equal String.length) in E.
    rewrite StrFacts.length_app in E.
    change ("_" +:+ ?x) with (String "_"%char x) in E. simpl in E. lia.
Qed.

Lemma tried_name_inj date_prefix original_name k k' :
  tried_name date_prefix original_name k =
  tried_name date_prefix original_name k' → k = k'.
Proof.
  destruct k as [|k], k' as [|k']; simpl; intros E; [done | | |].
  - by apply plain_name_ne_conflict_name in E.
  - symmetry in E. by apply plain_name_ne_conflict_name in E.
  - by apply conflict_name_inj in E.
Qed.

Lemma tried_name_longer date_prefix original_name k :
  String.length original_name + String.length date_prefix ≤
  String.length (tried_name date_prefix original_name k).
Proof.
  destruct k as [|k]; simpl.
  - rewrite StrFacts.length_app. lia.
  - unfold conflict_name.
    destruct (Str.rsplit_dot original_name) as [[b e]|] eqn:R.
    + apply StrFacts.rsplit_dot_Some in R as [-> _].
      rewrite !StrFacts.length_app. lia.
    + rewrite !StrFacts.length_app. lia.
Qed.

Lemma tried_name_succ date_prefix original_name k :
  tried_name date_prefix original_name (S k) =
  conflict_name date_prefix original_name (S k).
Proof. reflexivity. Qed.

Lemma tried_paths_NoDup (d : path) date_prefix original_name (ks : list nat) :
  NoDup ks →
  NoDup ((λ k, d </> tried_name date_prefix original_name k) <$> ks).
Proof.
  intros H.
  assert (Inj (=) (=) (λ k, d </> tried_name date_prefix original_name k)).
  { intros k k' E. apply app_inv_head in E. injection E as E.
    by apply tried_name_inj in E. }
  by apply (NoDup_fmap_2 _).
Qed.

End Names.

(** ** The tree: lookups and counting *)

Section TreeFacts.

Implicit Types (fs : FileSystem) (p d : path).

Lemma exists_true fs p : exists_ fs p = true ↔ is_Some (fs !! p).
Proof. unfold exists_. apply bool_decide_eq_true. Qed.

Lemma exists_false fs p : exists_ fs p = false ↔ fs !! p = None.
Proof.
  unfold exists_. rewrite bool_decide_eq_false. symmetry.
  apply eq_None_not_Some.
Qed.

Lemma is_dir_Some fs p : is_dir fs p = true ↔ ∃ st, fs !! p = Some (Dir st).
Proof.
  unfold is_dir. destruct (fs !! p) as [[data st|st]|]; split;
    try done; try (intros [? [=]]); eauto.
Qed.

Lemma is_file_Some fs p :
  is_file fs p = true ↔ ∃ data st, fs !! p = Some (File data st).
Proof.
  unfold is_file. destruct (fs !! p) as [[data st|st]|]; split;
    try done; try (intros (? & ? & [=])); eauto.
Qed.

Lemma is_dir_None fs p : fs !! p = None → is_dir fs p = false.
Proof. unfold is_dir. by intros ->. Qed.

Lemma parent_child d (n : string) : parent (d </> n) = d.
Proof. unfold parent. apply removelast_last. Qed.

Lemma name_child d (n : string) : name (d </> n) = n.
Proof. unfold name. by rewrite last_snoc. Qed.

Lemma child_not_prefix d (n : string) : ¬ (d </> n) `prefix_of` d.
Proof.
  intros H. apply prefix_length in H. rewrite length_app in H. simpl in H. lia.
Qed.

(** Distinct occupied paths are no more than the tree has entries. *)
Lemma occupied_bound fs (l : list path) :
  NoDup l → (∀ p, p ∈ l → is_Some (fs !! p)) → length l ≤ size fs.
Proof.
  intros ND H.
  rewrite <- (size_list_to_set (C := gset path) l ND), <- size_dom.
  apply subseteq_size. intros p Hp. apply elem_of_list_to_set in Hp.
  apply elem_of_dom. auto.
Qed.

End TreeFacts.

(** ** The conflict loop *)

Section Loop.

Variables (fs : FileSystem) (d : path) (date_prefix original_name : string).

Local Abbreviation tried := (tried_name date_prefix original_name).
Local Abbreviation loop fuel :=
  (while_exists fuel fs d date_prefix original_name).
Local Abbreviation run := (while_run fs d date_prefix original_name).

Lemma while_exists_sound fuel nf c nf' c' :
  loop fuel nf c = Some (nf', c') → run nf c nf' c'.
Proof.
  revert nf c. induction fuel as [|fuel IH]; intros nf c; simpl; [done |].
  destruct (exists_ fs (d </> nf)) eqn:E.
  - intros H. apply while_step; [done |]. by apply IH.
  - intros [= <- <-]. by apply while_stop.
Qed.

Lemma while_run_free nf c nf' c' :
  run nf c nf' c' → fs !! (d </> nf') = None.
Proof. induction 1; [by apply exists_false | done]. Qed.

Lemma while_run_functional nf c nf1 c1 nf2 c2 :
  run nf c nf1 c1 → run nf c nf2 c2 → nf1 = nf2 ∧ c1 = c2.
Proof.
  intros R1. revert nf2 c2. induction R1 as [nf c E | nf c nf1 c1 E R1 IH];
    intros nf2 c2 R2; inversion R2 as [? ? E2 | ? ? ? ? E2 R2']; subst;
    try congruence; auto.
Qed.

Lemma while_run_counter nf c nf' c' : run nf c nf' c' → c ≤ c'.
Proof. induction 1; lia. Qed.

(** Enough fuel reproduces any run of the unbounded loop. *)
Lemma while_exists_complete nf c nf' c' :
  run nf c nf' c' →
  ∀ fuel, c' - c < fuel → loop fuel nf c = Some (nf', c').
Proof.
  induction 1 as [nf c E | nf c nf' c' E R IH]; intros fuel Hf.
  - destruct fuel as [|fuel]; [lia |]. simpl. by rewrite E.
  - destruct fuel as [|fuel]; [lia |]. simpl. rewrite E.
    apply IH. apply while_run_counter in R. lia.
Qed.

(** Out of fuel means every name tried was taken. *)
Lemma while_exists_None fuel j :
  loop fuel (tried j) (S j) = None →
  ∀ k, j ≤ k < j + fuel → is_Some (fs !! (d </> tried k)).
Proof.
  revert j. induction fuel as [|fuel IH]; intros j; simpl; [intros; lia |].
  destruct (exists_ fs (d </> tried j)) eqn:E; [|done].
  intros H k Hk. destruct (decide (k = j)) as [->|].
  - by apply exists_true.
  - apply (IH (S j)); [done | lia].
Qed.

(** The loop stops at the first free name. *)
Lemma while_exists_first_free fuel j m :
  j ≤ m →
  (∀ k, j ≤ k < m → is_Some (fs !! (d </> tried k))) →
  fs !! (d </> tried m) = None →
  m - j < fuel →
  loop fuel (tried j) (S j) = Some (tried m, S m).
Proof.
  revert j. induction fuel as [|fuel IH]; intros j Hj Hocc Hfree Hf; [lia |].
  simpl. destruct (decide (j = m)) as [->|Hne].
  - by rewrite (proj2 (exists_false _ _) Hfree).
  - rewrite (proj2 (exists_true _ _)) by (apply Hocc; lia).
    apply (IH (S j)); [lia | | done | lia].
    intros k Hk. apply Hocc. lia.
Qed.

(** One more test than the tree has entries is always enough. *)
Lemma while_exists_total fuel :
  size fs < fuel → is_Some (loop fuel (date_prefix +:+ original_name) 1).
Proof.
  intros Hf. destruct (loop fuel _ 1) as [r|] eqn:L; [by eexists |].
  exfalso. pose proof (while_exists_None fuel 0 L) as Hocc.
  assert (length ((λ k, d </> tried k) <$> seq 0 fuel) ≤ size fs) as B.
  { apply occupied_bound.
    - apply tried_paths_NoDup, NoDup_seq.
    - intros p Hp. apply list_elem_of_fmap in Hp as (k & -> & Hk).
      apply elem_of_seq in Hk. apply Hocc. lia. }
  rewrite length_fmap, length_seq in B. lia.
Qed.

(** The name the loop stops on is the first free one. *)
Lemma while_exists_Some_tried fuel j nf c :
  loop fuel (tried j) (S j) = Some (nf, c) →
  ∃ m, j ≤ m ∧ nf = tried m ∧ c = S m ∧
       (∀ k, j ≤ k < m → is_Some (fs !! (d </> tried k))) ∧
       fs !! (d </> tried m) = None.
Proof.
  revert j. induction fuel as [|fuel IH]; intros j; simpl; [done |].
  destruct (exists_ fs (d </> tried j)) eqn:E.
  - intros H. apply (IH (S j)) in H as (m & Hm & -> & -> & Hocc & Hfree).
    exists m. split_and!; [lia | done | done | | done].
    intros k Hk. destruct (decide (k = j)) as [->|Hne].
    + by apply exists_true.
    + apply Hocc. lia.
  - intros [= <- <-]. exists j. split_and!; [done | done | done | |].
    + intros k Hk. lia.
    + by apply exists_false.
Qed.

Lemma first_free_index :
  ∃ m, (∀ k, k < m → is_Some (fs !! (d </> tried k))) ∧
       fs !! (d </> tried m) = None.
Proof.
  destruct (while_exists_total (S (size fs))) as [[nf c] L]; [lia |].
  apply (while_exists_Some_tried _ 0) in L as (m & _ & _ & _ & Hocc & Hfree).
  exists m. split; [|done]. intros k Hk. apply Hocc. lia.
Qed.

Lemma while_run_total :
  ∃ nf c, run (date_prefix +:+ original_name) 1 nf c.
Proof.
  destruct (while_exists_total (S (size fs))) as [[nf c] L]; [lia |].
  exists nf, c. by apply while_exists_sound in L.
Qed.

End Loop.

(** ** Creating the destination directory *)

Section Mkdir.

Variable pf : Platform.

Lemma mkdir_parents_existing rp fs :
  is_dir fs (rev rp) = true → mkdir_parents pf rp fs = inr fs.
Proof.
  intros H. apply is_dir_Some in H as [st H].
  destruct rp; simpl in *; by rewrite H.
Qed.

(** A successful [mkdir] leaves the directory in place, keeps every entry
    there was, and adds directories only, on the way to the one asked
    for. *)
Lemma mkdir_parents_inr rp fs fs' :
  mkdir_parents pf rp fs = inr fs' →
  is_dir fs' (rev rp) = true ∧
  (∀ p nd, fs !! p = Some nd → fs' !! p = Some nd) ∧
  (∀ p, fs !! p = None → is_Some (fs' !! p) →
        p `prefix_of` rev rp ∧ is_dir fs' p = true) ∧
  (tree_shaped fs → tree_shaped fs').
Proof.
  revert fs'. induction rp as [|x rp IH]; intros fs'.
  - simpl. destruct (fs !! []) as [[data st|st]|] eqn:E; [done | |].
    + intros [= <-]. split_and!; [by apply is_dir_Some; eauto | done | | done].
      intros p Hp [nd Hnd]. congruence.
    + intros [= <-]. split_and!.
      * apply is_dir_Some. eexists. apply lookup_insert_eq.
      * intros p nd Hp. rewrite lookup_insert_ne; [done | congruence].
      * intros p Hp Hs. destruct (decide (p = [])) as [->|Hne].
        -- split; [done |]. apply is_dir_Some. eexists. apply lookup_insert_eq.
        -- rewrite lookup_insert_ne in Hs by done. rewrite Hp in Hs.
           by destruct Hs.
      * intros T p n Hs. rewrite lookup_insert_ne in Hs by by destruct p.
        apply T in Hs. apply is_dir_Some in Hs as [st Hs].
        apply is_dir_Some. destruct (decide (p = [])) as [->|Hne].
        -- congruence.
        -- rewrite lookup_insert_ne by done. eauto.
  - cbn [mkdir_parents]. simpl rev.
    destruct (fs !! (rev rp </> x)) as [[data st|st]|] eqn:E; [done | |].
    + intros [= <-]. split_and!; [by apply is_dir_Some; eauto | done | | done].
      intros p Hp [nd Hnd]. congruence.
    + assert (∀ fs1 : FileSystem,
        is_dir fs1 (rev rp) = true →
        (∀ p nd, fs !! p = Some nd → fs1 !! p = Some nd) →
        (∀ p, fs !! p = None → is_Some (fs1 !! p) →
              p `prefix_of` rev rp ∧ is_dir fs1 p = true) →
        (tree_shaped fs → tree_shaped fs1) →
        let fs2 := <[rev rp </> x := Dir (fresh_stat pf fs1)]> fs1 in
        is_dir fs2 (rev rp </> x) = true ∧
        (∀ p nd, fs !! p = Some nd → fs2 !! p = Some nd) ∧
        (∀ p, fs !! p = None → is_Some (fs2 !! p) →
              p `prefix_of` (rev rp </> x) ∧ is_dir fs2 p = true) ∧
        (tree_shaped fs → tree_shaped fs2)) as Step.
      { intros fs1 D K A T fs2. subst fs2. split_and!.
        - apply is_dir_Some. eexists. apply lookup_insert_eq.
        - intros p nd Hp. rewrite lookup_insert_ne; [by apply K | congruence].
        - intros p Hp Hs. destruct (decide (p = rev rp </> x)) as [->|Hne].
          + split; [done |]. apply is_dir_Some. eexists. apply lookup_insert_eq.
          + rewrite lookup_insert_ne in Hs by done.
            destruct (A p Hp Hs) as [Pre Dp]. split.
            * by apply prefix_app_r.
            * apply is_dir_Some in Dp as [st Dp]. apply is_dir_Some.
              rewrite lookup_insert_ne by done. eauto.
        - intros T0 p n Hs. specialize (T T0).
          assert (is_dir fs1 p = true) as Dp.
          { destruct (decide (p </> n = rev rp </> x)) as [Heq|Hne].
            - apply app_inj_tail in Heq as [-> _]. done.
            - rewrite lookup_insert_ne in Hs by done. by apply T in Hs. }
          apply is_dir_Some in Dp as [st Dp]. apply is_dir_Some.
          destruct (decide (p = rev rp </> x)) as [->|Hne].
          + rewrite lookup_insert_eq. eauto.
          + rewrite lookup_insert_ne by done. eauto. }
      destruct (fs !! rev rp) as [[data st|st]|] eqn:Ep; [done | |].
      * intros [= <-].
        apply Step; [by apply is_dir_Some; eauto | done | | done].
        intros p Hp [nd Hnd]. congruence.
      * destruct (mkdir_parents pf rp fs) as [e|fs1] eqn:R; [done |].
        intros [= <-]. destruct (IH fs1 eq_refl) as (D & K & A & T).
        by apply Step.
Qed.

End Mkdir.

(** ** [rename_file], step by step *)

Section RenameFile.

Variable pf : Platform.

#[local] Arguments while_exists : simpl never.

(** The transfer into a free place of an existing directory. *)
Lemma copy2_free src d n fs data st :
  fs !! src = Some (File data st) →
  is_dir fs d = true →
  fs !! (d </> n) = None →
  copy2 pf src (d </> n) fs =
  inr (<[d </> n := File data (fresh_stat pf fs)]> fs).
Proof.
  intros Hs Hd Hn. unfold copy2, real_dst.
  rewrite Hs, (is_dir_None _ _ Hn). cbv iota.
  by rewrite (is_dir_None _ _ Hn), parent_child, Hd.
Qed.

Lemma move_free_file src d n fs data st :
  fs !! src = Some (File data st) →
  is_dir fs d = true →
  fs !! (d </> n) = None →
  move pf src (d </> n) fs =
  inr (<[d </> n := File data (moved_stat pf fs st)]> (delete src fs)).
Proof.
  intros Hs Hd Hn. unfold move, real_dst.
  rewrite Hs, (is_dir_None _ _ Hn). cbv iota.
  by rewrite parent_child, Hd.
Qed.

(** [rename_file] with its monadic steps carried out. *)
Lemma rename_file_unfold src dst copy_mode w :
  rename_file pf src dst copy_mode w =
  let failed e :=
    Returned (false, None, Some (ErrorProcessing src e))
      {| files := files w;
         log := log w ++ [(ERROR, Failure (ErrorProcessing src e))] |} in
  match mkdir_parents pf (rev dst) (files w) with
  | inl e => failed e
  | inr fs1 =>
      match fs1 !! src with
      | None =>
          Returned (false, None, Some CouldNotRetrieve)
            {| files := fs1;
               log := log w ++
                 [(ERROR, ErrorGettingCreationTime src FileNotFoundError)] |}
      | Some nd =>
          let date_prefix :=
            format_datetime_prefix (resolved_time (node_stat nd)) in
          match while_exists (S (size fs1)) fs1 dst date_prefix (name src)
                  (date_prefix +:+ name src) 1 with
          | None => Unfinished
          | Some (new_filename, _) =>
              match (if copy_mode then copy2 pf else move pf)
                      src (dst </> new_filename) fs1 with
              | inl e =>
                  Returned (false, None, Some (ErrorProcessing src e))
                    {| files := fs1;
                       log := log w ++
                         [(ERROR, Failure (ErrorProcessing src e))] |}
              | inr fs2 =>
                  Returned (true, Some new_filename, None)
                    {| files := fs2;
                       log := log w ++
                         [transfer_line copy_mode (name src) new_filename] |}
              end
          end
      end
  end.
Proof.
  unfold rename_file, try_except, Path_mkdir, get_file_creation_time,
    handle_conflicts, shutil_copy2, shutil_move, os_stat, lift_fs, logging,
    with_files, transfer_line, resolved_time.
  unfold mbind, mret, M_bind, M_ret, try_except. simpl.
  destruct (mkdir_parents pf (rev dst) (files w)) as [e|fs1]; [done |]. simpl.
  destruct (fs1 !! src) as [nd|]; [|reflexivity]. simpl.
  destruct (while_exists _ _ _ _ _ _ _) as [[nf c]|]; [|done]. simpl.
  destruct copy_mode; simpl.
  - destruct (copy2 _ _ _ _) as [e|fs2]; done.
  - destruct (move _ _ _ _) as [e|fs2]; done.
Qed.


(** What a success tells: the directory was established, the source was
    there, the name chosen was free at the time of the transfer, and the
    transfer went through. *)
Lemma rename_file_success src dst copy_mode w new_filename err w' :
  rename_file pf src dst copy_mode w = Returned (true, new_filename, err) w' →
  ∃ fs1 nd nf,
    new_filename = Some nf ∧ err = None ∧
    mkdir_parents pf (rev dst) (files w) = inr fs1 ∧
    fs1 !! src = Some nd ∧
    fs1 !! (dst </> nf) = None ∧
    (if copy_mode then copy2 pf else move pf) src (dst </> nf) fs1
      = inr (files w') ∧
    log w' = log w ++ [transfer_line copy_mode (name src) nf].
Proof.
  rewrite rename_file_unfold. cbv zeta.
  destruct (mkdir_parents _ _ _) as [e|fs1]; [done |].
  destruct (fs1 !! src) as [nd|] eqn:Hsrc; [|done].
  destruct (while_exists _ _ _ _ _ _ _) as [[nf c]|] eqn:L; [|done].
  apply while_exists_sound, while_run_free in L.
  destruct (if copy_mode then _ else _) as [e|fs2] eqn:T; [done |].
  intros [= <- <- <-]. exists fs1, nd, nf. simpl. by rewrite T.
Qed.

(** With the first [j] names of the file taken and the next one free, a
    regular file is placed under that next name. *)
Lemma rename_file_places src dst copy_mode w fs1 data st j :
  mkdir_parents pf (rev dst) (files w) = inr fs1 →
  files w !! src = Some (File data st) →
  let tried :=
    tried_name (format_datetime_prefix (resolved_time st)) (name src) in
  (∀ k, k < j → is_Some (files w !! (dst </> tried k))) →
  files w !! (dst </> tried j) = None →
  rename_file pf src dst copy_mode w =
  Returned (true, Some (tried j), None)
    {| files :=
         if copy_mode
         then <[dst </> tried j := File data (fresh_stat pf fs1)]> fs1
         else <[dst </> tried j := File data (moved_stat pf fs1 st)]>
                (delete src fs1);
       log := log w ++ [transfer_line copy_mode (name src) (tried j)] |}.
Proof.
  intros Hmk Hsrc tried Hocc Hfree.
  destruct (mkdir_parents_inr pf _ _ _ Hmk) as (Hd & Keep & Add & _).
  rewrite rev_involutive in Hd, Add.
  assert (fs1 !! (dst </> tried j) = None) as Hfree1.
  { apply eq_None_not_Some. intros Hs.
    destruct (Add _ Hfree Hs) as [Pre _]. by apply child_not_prefix in Pre. }
  assert (∀ k, k < j → is_Some (fs1 !! (dst </> tried k))) as Hocc1.
  { intros k Hk. destruct (Hocc k Hk) as [nd Hnd]. eexists. by apply Keep. }
  assert (j ≤ size fs1) as Hj.
  { assert (length ((λ k, dst </> tried k) <$> seq 0 j) ≤ size fs1) as B.
    { apply occupied_bound.
      - apply tried_paths_NoDup, NoDup_seq.
      - intros p Hp. apply list_elem_of_fmap in Hp as (k & -> & Hk).
        apply elem_of_seq in Hk. apply Hocc1. lia. }
    by rewrite length_fmap, length_seq in B. }
  rewrite rename_file_unfold. cbv zeta.
  rewrite Hmk, (Keep _ _ Hsrc). cbn [node_stat].
  change (format_datetime_prefix (resolved_time st) +:+ name src)
    with (tried 0).
  unfold tried in *.
  rewrite (while_exists_first_free fs1 dst _ _ (S (size fs1)) 0 j);
    [| lia | intros; apply Hocc1; lia | done | lia].
  destruct copy_mode.
  - by rewrite (copy2_free src dst _ fs1 data st) by auto.
  - by rewrite (move_free_file src dst _ fs1 data st) by auto.
Qed.

End RenameFile.

(** ** The timestamp prefix *)

Lemma format_datetime_prefix_layout dt :
  valid_datetime dt → format_datetime_prefix dt = prefix_layout dt.
Proof.
  intros (Hm & Hd & Hh & Hmi & Hs).
  unfold format_datetime_prefix, prefix_layout.
  pose proof (Nat.mod_upper_bound (year dt) 100 ltac:(lia)).
  by rewrite !FmtFacts.format_02d_layout by lia.
Qed.

Lemma prefix_layout_length dt : String.length (prefix_layout dt) = 14.
Proof. reflexivity. Qed.

Lemma get_file_creation_time_found file_path w nd :
  files w !! file_path = Some nd →
  get_file_creation_time file_path w =
  Returned (Some (resolved_time (node_stat nd))) w.
Proof.
  intros H. unfold get_file_creation_time, try_except, os_stat.
  unfold mbind, mret, M_bind, M_ret. by rewrite H.
Qed.

Lemma get_file_creation_time_missing file_path w :
  files w !! file_path = None →
  get_file_creation_time file_path w =
  Returned None
    {| files := files w;
       log := log w ++
         [(ERROR, ErrorGettingCreationTime file_path FileNotFoundError)] |}.
Proof.
  intros H. unfold get_file_creation_time, try_except, os_stat.
  unfold mbind, mret, M_bind, M_ret. by rewrite H.
Qed.

(** ** The claims *)

(** C3. A regular file whose creation time resolves to [t] and whose
    prefixed name is free in the destination is placed under the
    fourteen-character prefix of [t] (two digits each of year, month and
    day, an underscore, two digits each of hour, minute and second, an
    underscore) followed by its own name, unchanged. *)
Theorem C3_prefix_then_original_name pf w src dst copy_mode fs1 data st t :
  mkdir_parents pf (rev dst) (files w) = inr fs1 →
  files w !! src = Some (File data st) →
  get_file_creation_time src w = Returned (Some t) w →
  valid_datetime t →
  files w !! (dst </> (format_datetime_prefix t +:+ name src)) = None →
  String.length (prefix_layout t) = 14 ∧
  ∃ w', rename_file pf src dst copy_mode w =
        Returned (true, Some (prefix_layout t +:+ name src), None) w'.
Proof.
  intros Hmk Hsrc Ht Hv Hfree. split; [apply prefix_layout_length |].
  rewrite (get_file_creation_time_found _ _ _ Hsrc) in Ht.
  injection Ht as <-. simpl in Hv, Hfree.
  rewrite <- format_datetime_prefix_layout by done.
  eexists.
  apply (rename_file_places pf src dst copy_mode w fs1 data st 0 Hmk Hsrc);
    [intros; lia | done].
Qed.

(** The scenario of the specification: [report.pdf], created on
    2025-08-08 at 14:30:22, moved into an empty directory. *)
Lemma C3_report_pdf :
  String.length (prefix_layout sample_time) = 14 ∧
  ∃ w', rename_file reference_platform ["in"; "report.pdf"] ["out"] false
          sample_world =
        Returned (true, Some "250808_143022_report.pdf", None) w'.
Proof.
  apply (C3_prefix_then_original_name reference_platform sample_world
           ["in"; "report.pdf"] ["out"] false sample_tree
           [Byte.x25; Byte.x50] sample_stat sample_time).
  - vm_compute. reflexivity.
  - vm_compute. reflexivity.
  - vm_compute. reflexivity.
  - unfold valid_datetime. simpl. lia.
  - vm_compute. reflexivity.
Defined.

(** ** Transfers *)

Section Transfers.

Variable pf : Platform.

Lemma tree_shaped_below fs (q p : path) :
  tree_shaped fs → fs !! q = None → q `prefix_of` p → fs !! p = None.
Proof.
  intros T Hq [ext ->]. induction ext as [|n ext IH] using rev_ind.
  - by rewrite app_nil_r.
  - rewrite app_assoc. apply eq_None_not_Some. intros Hs.
    apply T, is_dir_Some in Hs as [st Hs]. congruence.
Qed.

(** A copy that went through into a free place wrote a regular file's
    content there and nothing else. *)
Lemma copy2_inr src d n fs fs' :
  fs !! (d </> n) = None →
  copy2 pf src (d </> n) fs = inr fs' →
  ∃ data st, fs !! src = Some (File data st) ∧
             fs' = <[d </> n := File data (fresh_stat pf fs)]> fs.
Proof.
  intros Hn. unfold copy2, real_dst.
  destruct (fs !! src) as [[data st|st]|]; [|done..].
  rewrite (is_dir_None _ _ Hn). cbv iota. rewrite (is_dir_None _ _ Hn).
  destruct (negb _); [done |]. intros [= <-]. eauto.
Qed.

(** What is outside a moved directory stays where it is. *)
Lemma move_tree_outside src tgt fs p nd :
  tree_shaped fs → fs !! tgt = None →
  fs !! p = Some nd → ¬ src `prefix_of` p →
  move_tree src tgt fs !! p = Some nd.
Proof.
  intros T Ht Hp Hout. unfold move_tree.
  apply lookup_union_Some_raw. right. split.
  - apply not_elem_of_list_to_map_1. intros Hin.
    apply list_elem_of_fmap in Hin as ([k' v'] & -> & Hin).
    apply list_elem_of_fmap in Hin as ([k v] & [= -> ->] & Hin).
    simpl in Hp. unfold rebase in Hp.
    rewrite (tree_shaped_below fs tgt (tgt ++ drop (length src) k)) in Hp;
      [done | done | done | by apply prefix_app_r].
  - by apply map_lookup_filter_Some.
Qed.

Lemma move_inr src d n fs fs' :
  fs !! (d </> n) = None →
  move pf src (d </> n) fs = inr fs' →
  (∃ data st, fs !! src = Some (File data st) ∧
     fs' = <[d </> n := File data (moved_stat pf fs st)]> (delete src fs)) ∨
  (∃ st, fs !! src = Some (Dir st) ∧
     fs' = move_tree src (d </> n) (<[src := Dir (moved_stat pf fs st)]> fs)).
Proof.
  intros Hn. unfold move, real_dst.
  destruct (fs !! src) as [[data st|st]|] eqn:Hs; [| |done];
    rewrite (is_dir_None _ _ Hn); cbv iota; simpl;
    destruct (negb _); try done.
  - intros [= <-]. left. eauto.
  - destruct (bool_decide _); [done |]. destruct (is_file _ _); [done |].
    intros [= <-]. right. eauto.
Qed.

End Transfers.

Lemma tree_shaped_restamp fs (src : path) st st' :
  tree_shaped fs → fs !! src = Some (Dir st) →
  tree_shaped (<[src := Dir st']> fs).
Proof.
  intros T Hs p n Hp. apply is_dir_Some.
  assert (is_Some (fs !! (p </> n))) as Hp'.
  { destruct (decide (src = p </> n)) as [<-|Hne]; [by eauto |].
    by rewrite lookup_insert_ne in Hp. }
  apply T, is_dir_Some in Hp' as [stp Hp'].
  destruct (decide (src = p)) as [->|Hne].
  - rewrite lookup_insert_eq. eauto.
  - rewrite lookup_insert_ne by done. eauto.
Qed.

(** C2. When a transfer is performed, nothing is at the resolved
    destination path: not before the call and not in the tree the transfer
    acts on (the one left by the directory creation). Every entry there was,
    the moved source and what lies below it apart, is the same afterwards:
    no existing file is overwritten. *)
Theorem C2_destination_free_at_transfer pf w src dst copy_mode nf err w' :
  tree_shaped (files w) →
  rename_file pf src dst copy_mode w = Returned (true, Some nf, err) w' →
  files w !! (dst </> nf) = None ∧
  (∃ fs1, mkdir_parents pf (rev dst) (files w) = inr fs1 ∧
          fs1 !! (dst </> nf) = None ∧
          (if copy_mode then copy2 pf else move pf) src (dst </> nf) fs1
            = inr (files w')) ∧
  (∀ p nd, files w !! p = Some nd →
           copy_mode = true ∨ ¬ src `prefix_of` p →
           files w' !! p = Some nd).
Proof.
  intros T H.
  apply rename_file_success in H
    as (fs1 & nd & nf' & [= <-] & _ & Hmk & Hsrc & Hfree & Htr & _).
  destruct (mkdir_parents_inr pf _ _ _ Hmk) as (Hd & Keep & _ & T1).
  specialize (T1 T).
  assert (files w !! (dst </> nf) = None) as Hfree0.
  { destruct (files w !! (dst </> nf)) as [x|] eqn:E; [|done].
    apply Keep in E. congruence. }
  split; [done |]. split; [by eauto |].
  intros p ndp Hp Hside. apply Keep in Hp.
  assert (p ≠ dst </> nf) as Hne by congruence.
  destruct copy_mode.
  - apply copy2_inr in Htr as (data & st & _ & ->); [|done].
    by rewrite lookup_insert_ne.
  - destruct Hside as [|Hout]; [done |].
    apply move_inr in Htr as [(data & st & Hs & ->)|(st & Hs & ->)]; [| |done].
    + rewrite lookup_insert_ne by done. rewrite lookup_delete_ne; [done |].
      intros ->. by apply Hout.
    + assert (p ≠ src) as Hps by (intros ->; by apply Hout).
      apply move_tree_outside; [| | |done].
      * by eapply tree_shaped_restamp.
      * rewrite lookup_insert_ne; [done | congruence].
      * by rewrite lookup_insert_ne.
Qed.


(** ** Several files with one name *)

Lemma format_datetime_prefix_nonempty t :
  1 ≤ String.length (format_datetime_prefix t).
Proof.
  unfold format_datetime_prefix. rewrite !StrFacts.length_app. simpl. lia.
Qed.

Section SameName.

Variables (pf : Platform) (dst : path) (copy_mode : bool).
Variables (n : string) (t : datetime).

Local Abbreviation tried := (tried_name (format_datetime_prefix t) n).

(** A file called [n] is at none of the paths tried for [n]. *)
Lemma source_not_tried (s : path) k : name s = n → s ≠ dst </> tried k.
Proof.
  intros Hn ->. rewrite name_child in Hn.
  pose proof (tried_name_longer (format_datetime_prefix t) n k) as L.
  pose proof (format_datetime_prefix_nonempty t). rewrite Hn in L. lia.
Qed.

(** The batch loop on sources of one name, started when the first [j]
    names are taken: every file is placed, each on the first free name,
    so the counters go up strictly; they are [j], [j + 1], ... when the
    names from [j] on are free at the start. *)
Lemma for_files_same_name srcs : ∀ j w sc ec fs1,
  mkdir_parents pf (rev dst) (files w) = inr fs1 →
  NoDup srcs →
  same_name_sources (files w) n t srcs →
  (∀ k, k < j → is_Some (files w !! (dst </> tried k))) →
  ∃ w' ks,
    for_files pf srcs dst copy_mode sc ec w =
      Returned (sc + length srcs, ec) w' ∧
    log w' = log w ++ (transfer_line copy_mode n <$> (tried <$> ks)) ∧
    length ks = length srcs ∧
    Forall (λ k, j ≤ k) ks ∧
    StronglySorted lt ks ∧
    (∀ k, k ∈ ks → is_Some (files w' !! (dst </> tried k))) ∧
    (∀ p, is_Some (files w !! p) → p ∉ srcs → is_Some (files w' !! p)) ∧
    ((∀ k, j ≤ k < j + length srcs → files w !! (dst </> tried k) = None) →
     ks = seq j (length srcs)).
Proof.
  induction srcs as [|s rest IH]; intros j w sc ec fs1 Hmk ND Hsrc Hocc.
  - exists w, []. simpl. rewrite Nat.add_0_r, app_nil_r.
    split_and!; try done; [constructor | intros k Hk; by inversion Hk].
  - apply NoDup_cons in ND as [Hs_rest ND].
    destruct (Hsrc s) as (Hname & data & st & Hs & Ht); [by left |].
    destruct (mkdir_parents_inr pf _ _ _ Hmk) as (Hd & Keep & Add & _).
    rewrite rev_involutive in Hd, Add.
    destruct (first_free_index (files w) dst (format_datetime_prefix t) n)
      as (m & Hoccm & Hfreem).
    assert (j ≤ m) as Hjm.
    { destruct (decide (j ≤ m)) as [|Hlt]; [done |].
      destruct (Hocc m) as [x Hx]; [lia | congruence]. }
    pose proof (rename_file_places pf s dst copy_mode w fs1 data st m
                  Hmk Hs) as Hplace.
    rewrite Ht, Hname in Hplace. cbv zeta in Hplace.
    specialize (Hplace Hoccm Hfreem).
    set (fs2 := if copy_mode
                then <[dst </> tried m := File data (fresh_stat pf fs1)]> fs1
                else <[dst </> tried m := File data (moved_stat pf fs1 st)]>
                       (delete s fs1)) in *.
    set (w1 := {| files := fs2;
                  log := log w ++ [transfer_line copy_mode n (tried m)] |})
      in *.
    (* what the first placement leaves *)
    assert (∀ p nd, files w !! p = Some nd → p ≠ s → fs2 !! p = Some nd)
      as Keep2.
    { intros p nd Hp Hps.
      assert (p ≠ dst </> tried m) as Hpt by congruence.
      apply Keep in Hp. subst fs2. destruct copy_mode.
      - by rewrite lookup_insert_ne.
      - by rewrite lookup_insert_ne, lookup_delete_ne. }
    assert (is_Some (fs2 !! (dst </> tried m))) as Hnew.
    { subst fs2. destruct copy_mode; rewrite lookup_insert_eq; by eauto. }
    assert (∀ p, files w !! p = None → ¬ p `prefix_of` dst →
                 p ≠ dst </> tried m → fs2 !! p = None) as Free2.
    { intros p Hp Hpre Hpt.
      assert (fs1 !! p = None) as Hp1.
      { apply eq_None_not_Some. intros Hsome.
        by destruct (Add p Hp Hsome) as [? _]. }
      subst fs2. destruct copy_mode.
      - by rewrite lookup_insert_ne.
      - rewrite lookup_insert_ne by done.
        destruct (decide (s = p)) as [->|Hne];
          [apply lookup_delete_eq | by rewrite lookup_delete_ne]. }
    assert (is_dir fs2 dst = true) as Hd2.
    { apply is_dir_Some in Hd as [std Hd]. apply is_dir_Some. exists std.
      assert (dst ≠ dst </> tried m) as Hne.
      { intros E. apply (f_equal length) in E.
        rewrite length_app in E. simpl in E. lia. }
      subst fs2. destruct copy_mode.
      - by rewrite lookup_insert_ne.
      - rewrite lookup_insert_ne, lookup_delete_ne; [done | | done].
        intros ->. apply Keep in Hs. congruence. }
    destruct (IH (S m) w1 (S sc) ec fs2)
      as (w' & ks & Hrun & Hlog & Hlen & Hge & Hsorted & Hall & Hkeep & Hseq).
    + apply mkdir_parents_existing. by rewrite rev_involutive.
    + done.
    + intros s' Hs'. destruct (Hsrc s') as (Hn' & data' & st' & Hl' & Ht');
        [by right |].
      split; [done |]. exists data', st'. split; [|done].
      apply Keep2; [done |]. intros ->. done.
    + intros k Hk. destruct (decide (k = m)) as [->|Hne]; [done |].
      destruct (Hoccm k) as [nd Hnd]; [lia |]. exists nd. simpl.
      apply Keep2; [done |]. intros E. by apply (source_not_tried s k).
    + exists w', (m :: ks). split_and!.
      * simpl. unfold mbind, M_bind. rewrite Hplace.
        replace (sc + S (length rest)) with (S sc + length rest) by lia.
        exact Hrun.
      * rewrite Hlog. simpl. by rewrite <- app_assoc.
      * simpl. by rewrite Hlen.
      * constructor; [done |]. eapply Forall_impl; [exact Hge |].
        simpl. intros k Hk. lia.
      * apply StronglySorted_cons. split; [|done].
        eapply Forall_impl; [exact Hge |]. simpl. intros k Hk. lia.
      * intros k Hk. apply elem_of_cons in Hk as [->|Hk]; [|by apply Hall].
        apply Hkeep; [done |]. intros Hin.
        destruct (Hsrc (dst </> tried m)) as (Hn' & _); [by right |].
        by apply (source_not_tried (dst </> tried m) m).
      * intros p [nd Hp] Hnin. apply not_elem_of_cons in Hnin as [Hps Hnin].
        apply Hkeep; [|done]. exists nd. by apply Keep2.
      * intros Hfree. simpl.
        assert (m = j) as ->.
        { destruct (decide (m = j)) as [|Hne]; [done |].
          destruct (Hoccm j) as [x Hx]; [lia |].
          rewrite Hfree in Hx; [done | simpl; lia]. }
        f_equal. apply Hseq. intros k Hk. simpl. apply Free2.
        -- apply Hfree. simpl. lia.
        -- apply child_not_prefix.
        -- intros E. apply app_inv_head in E. injection E as E.
           apply tried_name_inj in E. lia.
Qed.

End SameName.

Lemma StronglySorted_lt_NoDup (ks : list nat) :
  StronglySorted lt ks → NoDup ks.
Proof.
  induction ks as [|k ks IH]; [constructor |].
  rewrite StronglySorted_cons. intros [Hlt Hs]. constructor; [|by apply IH].
  intros Hin. rewrite Forall_forall in Hlt. apply Hlt in Hin. lia.
Qed.

(** C1. A name that is taken is replaced by numbered ones: the counter,
    from 1 on and zero-padded to three digits, goes before the last dot of
    the name, or at the end of a name without a dot. Sources that share
    name and creation time, placed one after another into one directory,
    all succeed, each on the first name still free, so that their names
    are pairwise distinct with counters going up in the order of
    processing; when the names they need are free at the start, the first
    gets the plain prefixed name and the next ones the counters 1, 2, ... *)
Theorem C1_numbered_alternates pf w dst copy_mode srcs n t fs1 :
  mkdir_parents pf (rev dst) (files w) = inr fs1 →
  NoDup srcs →
  same_name_sources (files w) n t srcs →
  let date_prefix := format_datetime_prefix t in
  (∃ w' ks,
     for_files pf srcs dst copy_mode 0 0 w = Returned (length srcs, 0) w' ∧
     log w' = log w ++
       (transfer_line copy_mode n <$> (tried_name date_prefix n <$> ks)) ∧
     length ks = length srcs ∧
     StronglySorted lt ks ∧
     NoDup (tried_name date_prefix n <$> ks) ∧
     (∀ k, k ∈ ks →
        is_Some (files w' !! (dst </> tried_name date_prefix n k))) ∧
     ((∀ k, k < length srcs →
         files w !! (dst </> tried_name date_prefix n k) = None) →
      ks = seq 0 (length srcs))) ∧
  tried_name date_prefix n 0 = date_prefix +:+ n ∧
  (∀ k base_name extension,
     n = base_name +:+ "." +:+ extension →
     Str.mem "."%char extension = false →
     tried_name date_prefix n (S k) =
     date_prefix +:+ base_name +:+ "_" +:+ Fmt.format_0d 3 (S k) +:+
     "." +:+ extension) ∧
  (∀ k, Str.mem "."%char n = false →
     tried_name date_prefix n (S k) =
     date_prefix +:+ n +:+ "_" +:+ Fmt.format_0d 3 (S k)) ∧
  (∀ k, k < 1000 → Fmt.format_0d 3 k = Fmt.three_digits k).
Proof.
  intros Hmk ND Hsrc date_prefix. split_and!.
  - destruct (for_files_same_name pf dst copy_mode n t srcs 0 w 0 0 fs1)
      as (w' & ks & Hrun & Hlog & Hlen & _ & Hsorted & Hall & _ & Hseq);
      try done.
    { intros k Hk. lia. }
    exists w', ks. split_and!; try done.
    + assert (Inj (=) (=) (tried_name date_prefix n))
        by (intros ???; by eapply tried_name_inj).
      by apply (NoDup_fmap_2 _), StronglySorted_lt_NoDup.
    + intros Hfree. apply Hseq. intros k Hk. apply Hfree. lia.
  - done.
  - intros k b e -> He. apply conflict_name_with_extension. done.
  - intros k Hn. by apply conflict_name_no_dot.
  - apply FmtFacts.format_03d_layout.
Qed.

(** ** Termination of the conflict loop *)

Lemma while_exists_counter fuel fs d date_prefix original_name nf c nf' c' :
  while_exists fuel fs d date_prefix original_name nf c = Some (nf', c') →
  c' < c + fuel.
Proof.
  revert nf c. induction fuel as [|fuel IH]; intros nf c; simpl; [done |].
  destruct (exists_ fs (d </> nf)).
  - intros H. apply IH in H. lia.
  - intros [= <- <-]. lia.
Qed.

(** A directory in which the first [m] names of a file are taken. *)
Lemma crowded_directory (d : path) date_prefix original_name m :
  ∃ fs : FileSystem,
    (∀ k, k < m →
       is_Some (fs !! (d </> tried_name date_prefix original_name k))) ∧
    fs !! (d </> tried_name date_prefix original_name m) = None.
Proof.
  exists (list_to_map
            ((λ k, (d </> tried_name date_prefix original_name k, sample_dir))
               <$> seq 0 m)).
  split.
  - intros k Hk. apply not_eq_None_Some. intros E.
    apply not_elem_of_list_to_map in E. apply E.
    rewrite <- list_fmap_compose. apply list_elem_of_fmap.
    exists k. split; [done |]. apply elem_of_seq. lia.
  - apply not_elem_of_list_to_map. rewrite <- list_fmap_compose.
    intros Hin. apply list_elem_of_fmap in Hin as (k & E & Hk).
    simpl in E. apply app_inv_head in E. injection E as E.
    apply tried_name_inj in E. apply elem_of_seq in Hk. lia.
Qed.

(** C4. Whatever the (finite) tree holds, the conflict loop stops: the
    unbounded loop has a run from the plain name and counter 1, it ends on
    a free name after at most as many increments as the tree has entries,
    and the fuelled function computes that run. The numbered names are
    pairwise distinct. The code has no cap on the counter: for every bound
    some tree drives the counter past it. *)
Theorem C4_conflict_loop_terminates fs dst date_prefix original_name :
  (∃ nf c,
     while_run fs dst date_prefix original_name
       (date_prefix +:+ original_name) 1 nf c ∧
     while_exists (S (size fs)) fs dst date_prefix original_name
       (date_prefix +:+ original_name) 1 = Some (nf, c) ∧
     fs !! (dst </> nf) = None ∧
     c ≤ S (size fs)) ∧
  (∀ k k', conflict_name date_prefix original_name k =
           conflict_name date_prefix original_name k' → k = k') ∧
  (∀ bound, ∃ (fs' : FileSystem) nf c,
     while_run fs' dst date_prefix original_name
       (date_prefix +:+ original_name) 1 nf c ∧
     bound < c).
Proof.
  split_and!.
  - destruct (while_exists_total fs dst date_prefix original_name
                (S (size fs))) as [[nf c] L]; [lia |].
    exists nf, c. pose proof (while_exists_sound _ _ _ _ _ _ _ _ _ L) as R.
    split_and!; [done | done | by eapply while_run_free |].
    apply while_exists_counter in L. lia.
  - apply conflict_name_inj.
  - intros bound.
    destruct (crowded_directory dst date_prefix original_name (S bound))
      as (fs' & Hocc & Hfree).
    exists fs', (tried_name date_prefix original_name (S bound)), (S (S bound)).
    split; [|lia].
    apply (while_exists_sound fs' dst date_prefix original_name (S (S bound))).
    apply (while_exists_first_free fs' dst date_prefix original_name
             (S (S bound)) 0 (S bound)); [lia | | done | lia].
    intros k Hk. apply Hocc. lia.
Qed.

(** ** The single-file invocation *)

(** Called on a source that is not there, [rename_file] itself reports a
    failure after it has established the destination directory: the
    directory creation comes before the look at the source. *)
Lemma rename_file_missing_source pf src dst copy_mode w fs1 :
  mkdir_parents pf (rev dst) (files w) = inr fs1 →
  fs1 !! src = None →
  rename_file pf src dst copy_mode w =
  Returned (false, None, Some CouldNotRetrieve)
    {| files := fs1;
       log := log w ++
         [(ERROR, ErrorGettingCreationTime src FileNotFoundError)] |}.
Proof.
  intros Hmk Hsrc. rewrite rename_file_unfold. cbv zeta.
  by rewrite Hmk, Hsrc.
Qed.


(** ** Batches *)

Section Batch.

Variable pf : Platform.

#[local] Arguments while_exists : simpl never.

(** On an input directory, [process_directory] runs its loop on the
    files [considered]. *)
Lemma process_directory_unfold input_path output_path copy_mode exts w st :
  files w !! input_path = Some (Dir st) →
  process_directory pf input_path output_path copy_mode exts w =
  process_files pf (considered pf (files w) input_path exts)
    output_path copy_mode w.
Proof.
  intros Hd.
  unfold process_directory, process_files, get_files, iterdir_files,
    considered.
  unfold mbind, M_bind at 1 2. cbv beta iota.
  rewrite (proj2 (exists_true _ _)) by eauto. cbn [negb]. cbv beta iota.
  rewrite Hd. by destruct (filter_extensions _ _).
Qed.


Lemma considered_unfiltered fs input_path exts f :
  exts = None ∨ exts = Some [] →
  f ∈ considered pf fs input_path exts ↔
  ∃ n, f = input_path </> n ∧ is_file fs f = true.
Proof.
  intros He. unfold considered.
  assert (∀ l, filter_extensions exts l = l) as ->
    by (by destruct He as [->| ->]).
  rewrite list_elem_of_filter, list_elem_of_fmap, Is_true_true. split.
  - intros (Hfile & n & -> & Hn). by eauto.
  - intros (n & -> & Hfile). split; [done |]. exists n. split; [done |].
    apply scandir_spec. apply is_file_Some in Hfile as (data & st & ->).
    by eauto.
Qed.

End Batch.


(** C10. An empty list as extension filter filters nothing:
    [process_directory] behaves as without a filter, and its batch is every
    regular file of the input directory. *)
Theorem C10_empty_filter_list_selects_all pf input_path output_path copy_mode :
  process_directory pf input_path output_path copy_mode (Some []) =
  process_directory pf input_path output_path copy_mode None ∧
  (∀ fs f, f ∈ considered pf fs input_path (Some []) ↔
           ∃ n, f = input_path </> n ∧ is_file fs f = true) ∧
  (∀ l, filter_extensions (Some []) l = l).
Proof.
  split_and!; [done | | done].
  intros fs f. apply considered_unfiltered. by right.
Qed.

(** ** One outcome per file *)

Section Outcomes.

Variable pf : Platform.

#[local] Arguments while_exists : simpl never.

Lemma count_true_false (outs : list bool) :
  count_true outs + count_false outs = length outs.
Proof.
  unfold count_true, count_false.
  induction outs as [|[] outs IH]; [done | |];
    rewrite !filter_cons; repeat case_decide; try done; simpl; lia.
Qed.

(** [rename_file] returns with one transfer line in the log when it
    succeeds and with no outcome line when it fails. *)
Lemma rename_file_outcome src dst copy_mode w :
  ∃ success new_name error w' added,
    rename_file pf src dst copy_mode w =
      Returned (success, new_name, error) w' ∧
    log w' = log w ++ added ∧
    omap outcome_of added = if success then [(name src, true)] else [].
Proof.
  rewrite rename_file_unfold. cbv zeta.
  destruct (mkdir_parents _ _ _) as [e|fs1].
  { do 5 eexists. split_and!; [done | done | done]. }
  destruct (fs1 !! src) as [nd|].
  2:{ do 5 eexists. split_and!; [done | done | done]. }
  destruct (while_exists_total fs1 dst
              (format_datetime_prefix (resolved_time (node_stat nd)))
              (name src) (S (size fs1))) as [[nf c] ->]; [lia |].
  destruct (if copy_mode then _ else _) as [e|fs2].
  { do 5 eexists. split_and!; [done | done | done]. }
  do 5 eexists. split_and!; [done | done |]. by destruct copy_mode.
Qed.

(** The batch loop returns; it leaves one outcome line per file, in the
    order of the files, and its counters have counted them. *)
Lemma for_files_outcomes batch output_path copy_mode :
  ∀ sc ec w,
  ∃ w' added outs,
    for_files pf batch output_path copy_mode sc ec w =
      Returned (sc + count_true outs, ec + count_false outs) w' ∧
    log w' = log w ++ added ∧
    omap outcome_of added = zip (name <$> batch) outs ∧
    length outs = length batch.
Proof.
  induction batch as [|f rest IH]; intros sc ec w.
  - exists w, [], []. simpl. unfold count_true, count_false. simpl.
    rewrite !Nat.add_0_r, app_nil_r. done.
  - destruct (rename_file_outcome f output_path copy_mode w)
      as (success & new_name & error & w1 & added1 & Hr & Hlog1 & Hout1).
    cbn [for_files]. unfold mbind, M_bind at 1. rewrite Hr.
    destruct success.
    + destruct (IH (S sc) ec w1)
        as (w' & added & outs & Hrun & Hlog & Hout & Hlen).
      exists w', (added1 ++ added), (true :: outs). split_and!.
      * rewrite Hrun. f_equal. unfold count_true, count_false.
        rewrite !filter_cons. repeat case_decide; try done. simpl.
        f_equal; lia.
      * by rewrite Hlog, Hlog1, app_assoc.
      * rewrite omap_app, Hout1, Hout. done.
      * simpl. by rewrite Hlen.
    + set (w2 := {| files := files w1;
                    log := log w1 ++
                      [(ERROR, FailedToProcess (name f) error)] |}).
      destruct (IH sc (S ec) w2)
        as (w' & added & outs & Hrun & Hlog & Hout & Hlen).
      exists w',
        (added1 ++ [(ERROR, FailedToProcess (name f) error)] ++ added),
        (false :: outs). split_and!.
      * unfold mbind, M_bind at 1. unfold logging at 1. fold w2.
        rewrite Hrun. f_equal. unfold count_true, count_false.
        rewrite !filter_cons. repeat case_decide; try done. simpl.
        f_equal; lia.
      * rewrite Hlog. simpl. rewrite Hlog1, <- !app_assoc. done.
      * by rewrite !omap_app, Hout1, Hout.
      * simpl. by rewrite Hlen.
Qed.

End Outcomes.

(** C8. A batch over an input directory returns normally whatever happens
    to single files. Among the log lines it adds there is exactly one
    outcome line per file considered, in the order of the files, a success
    or a failure; the successes and the failures add up to the number of
    files considered, and the closing line reports these two counts. *)
Theorem C8_one_outcome_per_file pf w input_path output_path copy_mode exts st :
  files w !! input_path = Some (Dir st) →
  let batch := considered pf (files w) input_path exts in
  ∃ w' added outs,
    process_directory pf input_path output_path copy_mode exts w =
      Returned () w' ∧
    log w' = log w ++ added ∧
    omap outcome_of added = zip (name <$> batch) outs ∧
    length outs = length batch ∧
    count_true outs + count_false outs = length batch ∧
    (batch ≠ [] →
     last added =
     Some (INFO, ProcessingComplete (count_true outs) (count_false outs))).
Proof.
  intros Hd batch.
  rewrite (process_directory_unfold pf _ _ _ _ _ st Hd). fold batch.
  clearbody batch.
  destruct (for_files_outcomes pf batch output_path copy_mode 0 0
              {| files := files w;
                 log := log w ++ [(INFO, FoundFiles (length batch))] |})
    as (w1 & added & outs & Hrun & Hlog & Hout & Hlen).
  destruct batch as [|f rest].
  - eexists _, [(WARNING, NoFilesFound)], []. by split_and!.
  - exists {| files := files w1;
              log := log w1 ++
                [(INFO, ProcessingComplete (count_true outs)
                          (count_false outs))] |},
      ([(INFO, FoundFiles (length (f :: rest)))] ++ added ++
         [(INFO, ProcessingComplete (count_true outs) (count_false outs))]),
      outs.
    split_and!.
    + unfold process_files. unfold mbind, M_bind at 1. unfold logging at 1.
      unfold mbind, M_bind at 1. by rewrite Hrun.
    + cbn [log]. rewrite Hlog. cbn [log]. by rewrite <- !app_assoc.
    + rewrite !omap_app, Hout. cbn. by rewrite app_nil_r.
    + done.
    + by rewrite count_true_false.
    + intros _. by rewrite !app_assoc, last_snoc.
Qed.

Lemma tree_shapedb_sound fs : tree_shapedb fs = true → tree_shaped fs.
Proof.
  unfold tree_shapedb. rewrite forallb_forall. intros H p n [nd Hs].
  assert (In (p </> n) (map_to_list fs).*1) as Hin.
  { apply list_elem_of_In, list_elem_of_fmap.
    exists (p </> n, nd). split; [done |]. by apply elem_of_map_to_list. }
  apply H in Hin. rewrite parent_child in Hin.
  by destruct (p </> n) as [|x l] eqn:E; [destruct p |].
Qed.

(** C9. A name that is a dot followed by a dot-free rest (as [.bashrc])
    is cut at that dot by the conflict loop: the rest counts as the
    extension and the base name is empty, so the numbered name is the
    prefix, an underscore, the counter, a dot and the rest, and not the
    whole name followed by the counter, although [suffix] gives such a
    name no extension. *)
Theorem C9_leading_dot_is_extension pf w src dst copy_mode fs1 data st rest :
  name src = "." +:+ rest →
  Str.mem "."%char rest = false →
  mkdir_parents pf (rev dst) (files w) = inr fs1 →
  files w !! src = Some (File data st) →
  let date_prefix := format_datetime_prefix (resolved_time st) in
  is_Some (files w !! (dst </> (date_prefix +:+ name src))) →
  files w !! (dst </> (date_prefix +:+ "_001." +:+ rest)) = None →
  (∃ w', rename_file pf src dst copy_mode w =
         Returned (true, Some (date_prefix +:+ "_001." +:+ rest), None) w') ∧
  Str.rsplit_dot (name src) = Some ("", rest) ∧
  suffix src = "" ∧
  (∀ counter,
     conflict_name date_prefix (name src) counter =
       date_prefix +:+ "" +:+ "_" +:+ Fmt.format_0d 3 counter +:+
       "." +:+ rest ∧
     conflict_name date_prefix (name src) counter ≠
       date_prefix +:+ name src +:+ "_" +:+ Fmt.format_0d 3 counter).
Proof.
  intros Hname Hrest Hmk Hsrc date_prefix Hocc Hfree.
  assert (Str.rsplit_dot (name src) = Some ("", rest)) as Hsplit.
  { rewrite Hname. by apply (StrFacts.rsplit_dot_app ""). }
  assert (∀ counter,
    conflict_name date_prefix (name src) counter =
    date_prefix +:+ "" +:+ "_" +:+ Fmt.format_0d 3 counter +:+ "." +:+ rest)
    as Hconf.
  { intros counter. unfold conflict_name. by rewrite Hsplit. }
  split_and!.
  - eexists.
    pose proof (rename_file_places pf src dst copy_mode w fs1 data st 1
                  Hmk Hsrc) as Hplace.
    cbv zeta in Hplace. fold date_prefix in Hplace.
    rewrite tried_name_succ, Hconf in Hplace.
    apply Hplace.
    + intros k Hk. by replace k with 0 by lia.
    + exact Hfree.
  - done.
  - unfold suffix. by rewrite Hsplit.
  - intros counter. split; [done |]. rewrite Hconf, Hname. intros E.
    apply StrFacts.app_inv_head in E. discriminate E.
Qed.

(** ** The claims on the sample trees *)

(** Three files called [report.pdf] moved into the empty [out]. *)
Lemma C1_three_reports :
  ∃ w', for_files reference_platform same_name_sources_sample ["out"] false
          0 0 same_name_world = Returned (3, 0) w' ∧
        log w' =
          [(INFO, Moved "report.pdf" "250808_143022_report.pdf");
           (INFO, Moved "report.pdf" "250808_143022_report_001.pdf");
           (INFO, Moved "report.pdf" "250808_143022_report_002.pdf")] ∧
        NoDup ["250808_143022_report.pdf"; "250808_143022_report_001.pdf";
               "250808_143022_report_002.pdf"].
Proof.
  destruct (C1_numbered_alternates reference_platform same_name_world ["out"]
              false same_name_sources_sample "report.pdf" sample_time
              same_name_tree)
    as ((w' & ks & Hrun & Hlog & _ & _ & ND & _ & Hseq) & _).
  - vm_compute. reflexivity.
  - apply (bool_decide_unpack _). vm_compute. exact I.
  - intros s Hs. apply list_elem_of_In in Hs. simpl in Hs.
    destruct Hs as [<-|[<-|[<-|[]]]];
      (split; [reflexivity |]); eexists _, sample_stat;
      (split; [vm_compute; reflexivity | reflexivity]).
  - assert (ks = seq 0 3) as ->.
    { apply Hseq. intros k Hk. simpl in Hk.
      destruct k as [|[|[|k]]]; [vm_compute; reflexivity.. | lia]. }
    exists w'. split_and!; [exact Hrun | exact Hlog | exact ND].
Defined.

(** [report.pdf] moved where [250808_143022_report.pdf] exists: the
    existing file is as it was, the new one is numbered. *)
Lemma C2_second_report :
  collision_tree !! ["out"; "250808_143022_report_001.pdf"] = None ∧
  ∃ w', rename_file reference_platform ["in"; "report.pdf"] ["out"] false
          collision_world =
        Returned (true, Some "250808_143022_report_001.pdf", None) w' ∧
        files w' !! ["out"; "250808_143022_report.pdf"] =
        Some (sample_file [Byte.x31]).
Proof.
  pose proof (rename_file_places reference_platform ["in"; "report.pdf"]
                ["out"] false collision_world collision_tree
                [Byte.x25; Byte.x50] sample_stat 1) as Hrun.
  cbv zeta in Hrun.
  specialize (Hrun ltac:(vm_compute; reflexivity)
                   ltac:(vm_compute; reflexivity)).
  assert (∀ k, k < 1 →
    is_Some (files collision_world !!
      (["out"] </> tried_name (format_datetime_prefix
         (resolved_time sample_stat)) (name ["in"; "report.pdf"]) k))) as Hocc.
  { intros k Hk. replace k with 0 by lia. vm_compute. eauto. }
  specialize (Hrun Hocc ltac:(vm_compute; reflexivity)).
  destruct (C2_destination_free_at_transfer reference_platform collision_world
              ["in"; "report.pdf"] ["out"] false _ _ _
              ltac:(apply tree_shapedb_sound; vm_compute; reflexivity) Hrun)
    as (Hfree & _ & Hkeep).
  split; [exact Hfree |]. eexists. split; [exact Hrun |].
  apply Hkeep; [vm_compute; reflexivity |]. right.
  intros Hpre. apply (bool_decide_pack _) in Hpre. vm_compute in Hpre.
  exact Hpre.
Defined.




(** The batch on the three files and the directory [old.txt]. *)
Lemma C8_sample_batch :
  ∃ w' added outs,
    process_directory reference_platform ["in"] ["out"] false None
      filter_world = Returned () w' ∧
    log w' = log filter_world ++ added ∧
    omap outcome_of added =
      zip (name <$> considered reference_platform filter_tree ["in"] None)
        outs ∧
    length outs = 3 ∧
    count_true outs + count_false outs = 3.
Proof.
  destruct (C8_one_outcome_per_file reference_platform filter_world ["in"]
              ["out"] false None sample_stat ltac:(vm_compute; reflexivity))
    as (w' & added & outs & Hrun & Hlog & Hout & Hlen & Hsum & _).
  exists w', added, outs.
  split_and!; [exact Hrun | exact Hlog | exact Hout | |].
  - exact Hlen.
  - exact Hsum.
Defined.

(** [.bashrc] copied where [250808_143022_.bashrc] exists. *)
Lemma C9_bashrc :
  (∃ w', rename_file reference_platform ["home"; ".bashrc"] ["out"] true
           bashrc_world =
         Returned (true, Some "250808_143022__001.bashrc", None) w') ∧
  "250808_143022__001.bashrc" ≠ "250808_143022_.bashrc_001".
Proof.
  destruct (C9_leading_dot_is_extension reference_platform bashrc_world
              ["home"; ".bashrc"] ["out"] true bashrc_tree [Byte.x23]
              sample_stat "bashrc") as (Hrun & _ & _ & Hconf).
  - reflexivity.
  - reflexivity.
  - vm_compute. reflexivity.
  - vm_compute. reflexivity.
  - vm_compute. eauto.
  - vm_compute. reflexivity.
  - split; [exact Hrun |]. exact (proj2 (Hconf 1)).
Defined.

(** * Further properties of the program *)

(** ** [get_file_creation_time] *)

(** X1. [get_file_creation_time] never lets an exception through and never
    touches the tree. For a path that exists it returns the birth time
    when the platform has one and the change time otherwise, logging
    nothing; for a path that does not exist it returns [None] and logs one
    error line. *)
Theorem X1_get_file_creation_time_total file_path w :
  ∃ r w',
    get_file_creation_time file_path w = Returned r w' ∧
    files w' = files w ∧
    match files w !! file_path with
    | Some nd =>
        log w' = log w ∧
        r = Some (match st_birthtime (node_stat nd) with
                  | Some birth => birth
                  | None => st_ctime (node_stat nd)
                  end)
    | None =>
        r = None ∧
        log w' = log w ++
          [(ERROR, ErrorGettingCreationTime file_path FileNotFoundError)]
    end.
Proof.
  destruct (files w !! file_path) as [nd|] eqn:E.
  - exists (Some (resolved_time (node_stat nd))), w.
    by rewrite (get_file_creation_time_found _ _ _ E).
  - eexists None, _. by rewrite (get_file_creation_time_missing _ _ E).
Qed.

(** ** [format_datetime_prefix] *)

Lemma String_inj c1 c2 (s1 s2 : string) :
  String c1 s1 = String c2 s2 → c1 = c2 ∧ s1 = s2.
Proof. by intros [= -> ->]. Qed.

Lemma digit_char_inj a b : a < 10 → b < 10 →
  Fmt.digit_char a = Fmt.digit_char b → a = b.
Proof.
  intros Ha Hb E. rewrite <- (FmtFacts.digit_val_char a Ha),
    <- (FmtFacts.digit_val_char b Hb). by rewrite E.
Qed.

Lemma two_digits_inj a b : a < 100 → b < 100 →
  Fmt.two_digits a = Fmt.two_digits b → a = b.
Proof.
  intros Ha Hb E. unfold Fmt.two_digits in E.
  apply String_inj in E as [E1 E]. apply String_inj in E as [E2 _].
  apply digit_char_inj in E1;
    [| apply Nat.Div0.div_lt_upper_bound; lia..].
  apply digit_char_inj in E2; [| apply Nat.mod_upper_bound; lia..].
  rewrite (Nat.div_mod_eq a 10), (Nat.div_mod_eq b 10). lia.
Qed.

Lemma two_digits_app_inv a b (x y : string) : a < 100 → b < 100 →
  Fmt.two_digits a +:+ x = Fmt.two_digits b +:+ y → a = b ∧ x = y.
Proof.
  intros Ha Hb E.
  assert (∀ n z, Fmt.two_digits n +:+ z =
            String (Fmt.digit_char (n / 10))
              (String (Fmt.digit_char (n mod 10)) z)) as U by done.
  rewrite !U in E.
  apply String_inj in E as [E1 E]. apply String_inj in E as [E2 E3].
  split; [|done].
  apply two_digits_inj; [done | done |]. unfold Fmt.two_digits. congruence.
Qed.

(** X2. On valid datetimes the prefix tells the fields apart: two
    prefixes are equal exactly when month, day, hour, minute and second
    agree and the years agree modulo 100. The century is not in the
    prefix. *)
Theorem X2_prefix_determines_fields dt1 dt2 :
  valid_datetime dt1 → valid_datetime dt2 →
  format_datetime_prefix dt1 = format_datetime_prefix dt2 ↔
  year dt1 mod 100 = year dt2 mod 100 ∧ month dt1 = month dt2 ∧
  day dt1 = day dt2 ∧ hour dt1 = hour dt2 ∧ minute dt1 = minute dt2 ∧
  second dt1 = second dt2.
Proof.
  intros V1 V2. split.
  - rewrite !format_datetime_prefix_layout by done.
    destruct V1 as (? & ? & ? & ? & ?), V2 as (? & ? & ? & ? & ?).
    pose proof (Nat.mod_upper_bound (year dt1) 100 ltac:(lia)).
    pose proof (Nat.mod_upper_bound (year dt2) 100 ltac:(lia)).
    unfold prefix_layout. intros E.
    apply two_digits_app_inv in E as [Ey E]; [| lia..].
    apply two_digits_app_inv in E as [Em E]; [| lia..].
    apply two_digits_app_inv in E as [Ed E]; [| lia..].
    apply (String_inj "_" "_") in E as [_ E].
    apply two_digits_app_inv in E as [Eh E]; [| lia..].
    apply two_digits_app_inv in E as [Emi E]; [| lia..].
    apply two_digits_app_inv in E as [Es _]; [| lia..].
    done.
  - intros (Ey & Em & Ed & Eh & Emi & Es). unfold format_datetime_prefix.
    by rewrite Ey, Em, Ed, Eh, Emi, Es.
Qed.

(** The sample time and the same time in 1925 share their prefix. *)
Lemma X2_century_apart :
  format_datetime_prefix sample_time =
  format_datetime_prefix sample_time_1925.
Proof.
  apply (X2_prefix_determines_fields sample_time sample_time_1925).
  - unfold valid_datetime. simpl. lia.
  - unfold valid_datetime. simpl. lia.
  - vm_compute. repeat split.
Defined.

(** ** [rename_file] on a regular file *)

Section RegularSource.

Variable pf : Platform.

(** A regular file is always placed when the destination directory can
    be established: on the first of its names that is free. *)
Lemma rename_file_regular src dst copy_mode w fs1 data st :
  mkdir_parents pf (rev dst) (files w) = inr fs1 →
  files w !! src = Some (File data st) →
  ∃ m,
    let tried :=
      tried_name (format_datetime_prefix (resolved_time st)) (name src) in
    (∀ k, k < m → is_Some (files w !! (dst </> tried k))) ∧
    files w !! (dst </> tried m) = None ∧
    fs1 !! (dst </> tried m) = None ∧
    rename_file pf src dst copy_mode w =
    Returned (true, Some (tried m), None)
      {| files :=
           if copy_mode
           then <[dst </> tried m := File data (fresh_stat pf fs1)]> fs1
           else <[dst </> tried m := File data (moved_stat pf fs1 st)]>
                  (delete src fs1);
         log := log w ++ [transfer_line copy_mode (name src) (tried m)] |}.
Proof.
  intros Hmk Hsrc.
  destruct (first_free_index (files w) dst
              (format_datetime_prefix (resolved_time st)) (name src))
    as (m & Hocc & Hfree).
  exists m. cbv zeta. split_and!; [done | done | |].
  - destruct (mkdir_parents_inr pf _ _ _ Hmk) as (_ & _ & Add & _).
    rewrite rev_involutive in Add.
    apply eq_None_not_Some. intros Hs.
    destruct (Add _ Hfree Hs) as [Pre _]. by apply child_not_prefix in Pre.
  - by apply (rename_file_places pf src dst copy_mode w fs1 data st m).
Qed.

End RegularSource.

(** X3. Whenever the destination directory can be established, a regular
    file is transferred, never refused: it lands on the first free one of
    its names (the plain prefixed name, then the numbered ones in order).
    Every other entry of the tree is left as it was, and nothing appears
    but the new file and the directories created on the way to the
    destination. *)
Theorem X3_regular_file_always_placed pf src dst copy_mode w fs1 data st :
  mkdir_parents pf (rev dst) (files w) = inr fs1 →
  files w !! src = Some (File data st) →
  let tried :=
    tried_name (format_datetime_prefix (resolved_time st)) (name src) in
  ∃ m w',
    rename_file pf src dst copy_mode w =
      Returned (true, Some (tried m), None) w' ∧
    (∀ k, k < m → is_Some (files w !! (dst </> tried k))) ∧
    files w !! (dst </> tried m) = None ∧
    (∀ p nd, files w !! p = Some nd → p ≠ src → files w' !! p = Some nd) ∧
    (∀ p, files w !! p = None → is_Some (files w' !! p) →
          p = dst </> tried m ∨ p `prefix_of` dst).
Proof.
  intros Hmk Hsrc tried.
  destruct (rename_file_regular pf src dst copy_mode w fs1 data st Hmk Hsrc)
    as (m & Hocc & Hfree & Hfree1 & Hrun).
  cbv zeta in *. fold tried in Hocc, Hfree, Hfree1, Hrun.
  destruct (mkdir_parents_inr pf _ _ _ Hmk) as (_ & Keep & Add & _).
  rewrite rev_involutive in Add.
  eexists m, _. split_and!; [exact Hrun | done | done | |].
  - intros p nd Hp Hne. apply Keep in Hp.
    assert (p ≠ dst </> tried m) by congruence. cbn [files].
    destruct copy_mode.
    + by rewrite lookup_insert_ne.
    + by rewrite lookup_insert_ne, lookup_delete_ne.
  - intros p Hp Hs. cbn [files] in Hs.
    destruct (decide (p = dst </> tried m)) as [|Hne]; [by left |]. right.
    apply Add; [done |]. destruct copy_mode.
    + by rewrite lookup_insert_ne in Hs.
    + rewrite lookup_insert_ne in Hs by done.
      destruct (decide (src = p)) as [->|Hsp].
      * rewrite lookup_delete_eq in Hs. by destruct Hs.
      * by rewrite lookup_delete_ne in Hs.
Qed.

(** The second [report.pdf] is placed although the plain name is taken. *)
Lemma X3_second_report_placed :
  ∃ m w',
    rename_file reference_platform ["in"; "report.pdf"] ["out"] true
      collision_world =
    Returned (true,
              Some (tried_name (format_datetime_prefix sample_time)
                      "report.pdf" m), None) w' ∧
    files w' !! ["out"; "250808_143022_report.pdf"] =
    Some (sample_file [Byte.x31]).
Proof.
  destruct (X3_regular_file_always_placed reference_platform
              ["in"; "report.pdf"] ["out"] true collision_world
              collision_tree [Byte.x25; Byte.x50] sample_stat)
    as (m & w' & Hrun & _ & _ & Hkeep & _).
  - vm_compute. reflexivity.
  - vm_compute. reflexivity.
  - exists m, w'. split; [exact Hrun |].
    apply Hkeep; [vm_compute; reflexivity | discriminate].
Defined.

(** ** [rename_file] when it fails *)

Section Failures.

Variable pf : Platform.

#[local] Arguments while_exists : simpl never.

(** X4. The tuple [rename_file] returns is well formed: a name and no
    error on success, an error and no name on failure. A call that fails
    has changed no entry of the tree; at most it has created directories
    on the way to the destination. *)
Theorem X4_failure_changes_no_file src dst copy_mode w success nn err w' :
  rename_file pf src dst copy_mode w = Returned (success, nn, err) w' →
  (success = true → is_Some nn ∧ err = None) ∧
  (success = false →
     nn = None ∧ is_Some err ∧
     (∀ p nd, files w !! p = Some nd → files w' !! p = Some nd) ∧
     (∀ p, files w !! p = None → is_Some (files w' !! p) →
           is_dir (files w') p = true ∧ p `prefix_of` dst)).
Proof.
  rewrite rename_file_unfold. cbv zeta.
  destruct (mkdir_parents _ _ _) as [e|fs1] eqn:Hmk.
  { intros [= <- <- <- <-]. split; [done |]. intros _.
    split_and!; [done | by eauto | done |].
    intros p Hp [x Hx]. simpl in Hx. congruence. }
  destruct (mkdir_parents_inr pf _ _ _ Hmk) as (_ & Keep & Add & _).
  rewrite rev_involutive in Add.
  assert (∀ p, files w !! p = None → is_Some (fs1 !! p) →
               is_dir fs1 p = true ∧ p `prefix_of` dst) as Add'.
  { intros p Hp Hs. destruct (Add p Hp Hs). done. }
  destruct (fs1 !! src) as [nd|].
  2:{ intros [= <- <- <- <-]. split; [done |]. intros _.
      split_and!; [done | by eauto | done | done]. }
  destruct (while_exists _ _ _ _ _ _ _) as [[nf c]|]; [|done].
  destruct (if copy_mode then _ else _) as [e|fs2].
  - intros [= <- <- <- <-]. split; [done |]. intros _.
    split_and!; [done | by eauto | done | done].
  - intros [= <- <- <- <-]. split; [|done]. intros _. by eauto.
Qed.

(** X5. When the destination path is a regular file, [rename_file] fails
    with the [FileExistsError] of the directory creation and leaves the
    tree as it is; the source is not looked at. *)
Theorem X5_destination_is_a_file src dst copy_mode w :
  is_file (files w) dst = true →
  rename_file pf src dst copy_mode w =
  Returned (false, None, Some (ErrorProcessing src FileExistsError))
    {| files := files w;
       log := log w ++
         [(ERROR, Failure (ErrorProcessing src FileExistsError))] |}.
Proof.
  intros Hf. apply is_file_Some in Hf as (data & st & Hf).
  rewrite rename_file_unfold. cbv zeta.
  assert (mkdir_parents pf (rev dst) (files w) = inl FileExistsError) as ->;
    [|done].
  rewrite <- (rev_involutive dst) in Hf.
  destruct (rev dst); simpl in *; by rewrite Hf.
Qed.

(** X6. The destination directory is created before the source is looked
    at: called on a source that does not exist, [rename_file] fails with
    "Could not retrieve file creation time" and leaves the destination
    directory behind, created if it was not there. *)
Theorem X6_missing_source_leaves_directory src dst copy_mode w fs1 :
  mkdir_parents pf (rev dst) (files w) = inr fs1 →
  files w !! src = None →
  ¬ src `prefix_of` dst →
  rename_file pf src dst copy_mode w =
    Returned (false, None, Some CouldNotRetrieve)
      {| files := fs1;
         log := log w ++
           [(ERROR, ErrorGettingCreationTime src FileNotFoundError)] |} ∧
  is_dir fs1 dst = true ∧
  fs1 !! src = None.
Proof.
  intros Hmk Hsrc Hpre.
  destruct (mkdir_parents_inr pf _ _ _ Hmk) as (Hd & _ & Add & _).
  rewrite rev_involutive in Hd, Add.
  assert (fs1 !! src = None) as Hsrc1.
  { apply eq_None_not_Some. intros Hs. by destruct (Add _ Hsrc Hs). }
  split_and!; [|done..]. by apply rename_file_missing_source.
Qed.

(** X7. In copy mode a source that is a directory is refused: [copy2]
    raises [IsADirectoryError], [rename_file] reports the failure, and
    the tree is the one the directory creation left. *)
Theorem X7_copy_refuses_directory src dst w fs1 st :
  mkdir_parents pf (rev dst) (files w) = inr fs1 →
  fs1 !! src = Some (Dir st) →
  rename_file pf src dst true w =
  Returned (false, None, Some (ErrorProcessing src IsADirectoryError))
    {| files := fs1;
       log := log w ++
         [(ERROR, Failure (ErrorProcessing src IsADirectoryError))] |}.
Proof.
  intros Hmk Hsrc. rewrite rename_file_unfold. cbv zeta.
  rewrite Hmk, Hsrc. cbn [node_stat].
  destruct (while_exists_total fs1 dst
              (format_datetime_prefix (resolved_time st))
              (name src) (S (size fs1))) as [[nf c] ->]; [lia |].
  unfold copy2. by rewrite Hsrc.
Qed.

(** X8. In move mode a directory is not moved into itself: when the
    destination lies in or below the source directory, [shutil.move]
    raises its error, [rename_file] reports the failure, and nothing is
    moved. *)
Theorem X8_move_into_itself_refused src dst w fs1 st :
  mkdir_parents pf (rev dst) (files w) = inr fs1 →
  fs1 !! src = Some (Dir st) →
  src `prefix_of` dst →
  rename_file pf src dst false w =
  Returned (false, None, Some (ErrorProcessing src ShutilError))
    {| files := fs1;
       log := log w ++
         [(ERROR, Failure (ErrorProcessing src ShutilError))] |}.
Proof.
  intros Hmk Hsrc Hpre. rewrite rename_file_unfold. cbv zeta.
  rewrite Hmk, Hsrc. cbn [node_stat].
  destruct (mkdir_parents_inr pf _ _ _ Hmk) as (Hd & _ & _ & _).
  rewrite rev_involutive in Hd.
  destruct (while_exists_total fs1 dst
              (format_datetime_prefix (resolved_time st))
              (name src) (S (size fs1))) as [[nf c] L]; [lia |].
  rewrite L. apply while_exists_sound, while_run_free in L.
  unfold move, real_dst. rewrite Hsrc, (is_dir_None _ _ L). cbv iota.
  simpl andb. cbv iota. rewrite parent_child, Hd. simpl negb. cbv iota.
  rewrite bool_decide_eq_true_2; [done |]. by apply prefix_app_r.
Qed.

End Failures.

(** A missing source and the destination [new/deep]: the call fails and
    what was in the tree is still there. *)
Lemma X4_missing_source_sample :
  sample_tree_new_deep !! ["in"; "report.pdf"] =
  Some (sample_file [Byte.x25; Byte.x50]).
Proof.
  pose proof (rename_file_missing_source reference_platform
                ["in"; "nothing"] ["new"; "deep"] false sample_world
                sample_tree_new_deep
                ltac:(vm_compute; reflexivity)
                ltac:(vm_compute; reflexivity)) as Hrun.
  destruct (X4_failure_changes_no_file reference_platform
              ["in"; "nothing"] ["new"; "deep"] false sample_world
              _ _ _ _ Hrun) as (_ & Hfail).
  destruct (Hfail eq_refl) as (_ & _ & Hkeep & _).
  apply Hkeep. vm_compute. reflexivity.
Defined.

(** The destination given is the file [in/report.pdf]. *)
Lemma X5_destination_report_pdf :
  rename_file reference_platform ["in"; "report.pdf"] ["in"; "report.pdf"]
    false sample_world =
  Returned (false, None,
            Some (ErrorProcessing ["in"; "report.pdf"] FileExistsError))
    {| files := sample_tree;
       log := [(ERROR, Failure (ErrorProcessing ["in"; "report.pdf"]
                                  FileExistsError))] |}.
Proof.
  apply (X5_destination_is_a_file reference_platform ["in"; "report.pdf"]
           ["in"; "report.pdf"] false sample_world).
  vm_compute. reflexivity.
Defined.

(** A missing source and the destination [new/deep]: both directories
    are there afterwards. *)
Lemma X6_new_deep_created :
  rename_file reference_platform ["in"; "nothing"] ["new"; "deep"] false
    sample_world =
    Returned (false, None, Some CouldNotRetrieve)
      {| files := sample_tree_new_deep;
         log := [(ERROR, ErrorGettingCreationTime ["in"; "nothing"]
                           FileNotFoundError)] |} ∧
  is_dir sample_tree_new_deep ["new"; "deep"] = true ∧
  sample_tree_new_deep !! ["in"; "nothing"] = None.
Proof.
  apply (X6_missing_source_leaves_directory reference_platform
           ["in"; "nothing"] ["new"; "deep"] false sample_world
           sample_tree_new_deep).
  - vm_compute. reflexivity.
  - vm_compute. reflexivity.
  - intros Hpre. apply (bool_decide_pack _) in Hpre. vm_compute in Hpre.
    exact Hpre.
Defined.

(** The directory [in] given as the file to copy. *)
Lemma X7_copy_of_in :
  rename_file reference_platform ["in"] ["out"] true sample_world =
  Returned (false, None, Some (ErrorProcessing ["in"] IsADirectoryError))
    {| files := sample_tree;
       log := [(ERROR, Failure (ErrorProcessing ["in"]
                                  IsADirectoryError))] |}.
Proof.
  apply (X7_copy_refuses_directory reference_platform ["in"] ["out"]
           sample_world sample_tree sample_stat).
  - vm_compute. reflexivity.
  - vm_compute. reflexivity.
Defined.

(** The directory [in] to be moved into [in/sub]. *)
Lemma X8_in_into_in_sub :
  rename_file reference_platform ["in"] ["in"; "sub"] false sample_world =
  Returned (false, None, Some (ErrorProcessing ["in"] ShutilError))
    {| files := sample_tree_in_sub;
       log := [(ERROR, Failure (ErrorProcessing ["in"] ShutilError))] |}.
Proof.
  apply (X8_move_into_itself_refused reference_platform ["in"] ["in"; "sub"]
           sample_world sample_tree_in_sub sample_stat).
  - vm_compute. reflexivity.
  - vm_compute. reflexivity.
  - by exists ["sub"].
Defined.

(** ** The extension of the new name *)

Section Extension.

Lemma mem_app c (a b : string) :
  Str.mem c (a +:+ b) = Str.mem c a || Str.mem c b.
Proof.
  induction a as [|x a IH]; [done |].
  rewrite StrFacts.app_cons. simpl. by rewrite IH, orb_assoc.
Qed.

Lemma app_empty (a b : string) : a +:+ b = "" → a = "" ∧ b = "".
Proof. by destruct a. Qed.

Lemma digit_char_not_dot d :
  d < 10 → Ascii.eqb "."%char (Fmt.digit_char d) = false.
Proof.
  intros H. do 10 (destruct d as [|d]; [reflexivity |]). lia.
Qed.

Lemma digits_go_no_dot fuel n acc :
  Str.mem "."%char (Fmt.digits_go fuel n acc) = Str.mem "."%char acc.
Proof.
  revert n acc. induction fuel as [|fuel IH]; intros n acc; [done |].
  cbn [Fmt.digits_go].
  pose proof (Nat.mod_upper_bound n 10 ltac:(lia)) as Hm.
  destruct (n / 10 =? 0).
  - cbn [Str.mem]. by rewrite digit_char_not_dot.
  - rewrite IH. cbn [Str.mem]. by rewrite digit_char_not_dot.
Qed.

Lemma format_0d_no_dot w n : Str.mem "."%char (Fmt.format_0d w n) = false.
Proof.
  unfold Fmt.format_0d, Fmt.zfill, Fmt.decimal.
  rewrite mem_app, digits_go_no_dot, orb_false_r.
  induction (w - _) as [|k IH]; [done |]. simpl. by rewrite IH.
Qed.

Lemma format_datetime_prefix_no_dot t :
  Str.mem "."%char (format_datetime_prefix t) = false.
Proof.
  unfold format_datetime_prefix. by rewrite !mem_app, !format_0d_no_dot.
Qed.

(** The suffix of a name built around a last dot. *)
Lemma suffix_of_dotted (d : path) (a e : string) :
  a ≠ "" → e ≠ "" → Str.mem "."%char e = false →
  suffix (d </> (a +:+ "." +:+ e)) = "." +:+ e.
Proof.
  intros Ha He Hm. unfold suffix.
  rewrite name_child, StrFacts.rsplit_dot_app by done.
  by rewrite !bool_decide_eq_false_2.
Qed.

Lemma suffix_of_dot_free (d : path) (a : string) :
  Str.mem "."%char a = false → suffix (d </> a) = "".
Proof.
  intros Hm. unfold suffix.
  by rewrite name_child, (proj2 (StrFacts.rsplit_dot_None a) Hm).
Qed.

(** What any of the names tried for a file has as suffix. *)
Lemma suffix_of_tried (d : path) date_prefix original_name m :
  date_prefix ≠ "" →
  Str.mem "."%char date_prefix = false →
  match Str.rsplit_dot original_name with
  | Some (b, e) =>
      e ≠ "" →
      suffix (d </> tried_name date_prefix original_name m) = "." +:+ e
  | None => suffix (d </> tried_name date_prefix original_name m) = ""
  end.
Proof.
  intros Hp Hpd.
  destruct (Str.rsplit_dot original_name) as [[b e]|] eqn:R.
  - intros He. apply StrFacts.rsplit_dot_Some in R as [-> Hm].
    destruct m as [|k]; simpl.
    + rewrite <- StrFacts.app_assoc. apply suffix_of_dotted; [|done..].
      intros E. by apply app_empty in E as [? _].
    + rewrite conflict_name_with_extension by done.
      replace (date_prefix +:+ b +:+ "_" +:+ Fmt.format_0d 3 (S k) +:+
               "." +:+ e)
        with ((date_prefix +:+ b +:+ "_" +:+ Fmt.format_0d 3 (S k)) +:+
              "." +:+ e) by (by rewrite !StrFacts.app_assoc).
      apply suffix_of_dotted; [|done..].
      intros E. by apply app_empty in E as [? _].
  - apply StrFacts.rsplit_dot_None in R.
    destruct m as [|k]; simpl.
    + apply suffix_of_dot_free. by rewrite mem_app, Hpd, R.
    + rewrite conflict_name_no_dot by done. apply suffix_of_dot_free.
      by rewrite !mem_app, Hpd, R, format_0d_no_dot.
Qed.

End Extension.

Section NewName.

Variable pf : Platform.

#[local] Arguments while_exists : simpl never.

(** The name of a success is one of the names tried for the source, with
    the prefix of a creation time. *)
Lemma rename_file_name src dst copy_mode w nf err w' :
  rename_file pf src dst copy_mode w = Returned (true, Some nf, err) w' →
  ∃ t m, nf = tried_name (format_datetime_prefix t) (name src) m.
Proof.
  rewrite rename_file_unfold. cbv zeta.
  destruct (mkdir_parents _ _ _) as [e|fs1]; [done |].
  destruct (fs1 !! src) as [nd|]; [|done].
  destruct (while_exists _ _ _ _ _ _ _) as [[nf' c]|] eqn:L; [|done].
  apply (while_exists_Some_tried _ _ _ _ _ 0) in L as (m & _ & -> & _).
  destruct (if copy_mode then _ else _) as [e|fs2]; [done |].
  intros [= <- <- <-]. by eauto.
Qed.

(** X9. The renaming keeps the extension: when the source has a suffix
    (in the sense of [Path.suffix], the one the extension filter reads),
    the new name has the same suffix, numbered or not; a name without a dot
    stays without suffix. A name that is a dot and a dot-free rest, which
    has no suffix, gets the rest as its suffix. *)
Theorem X9_extension_kept src dst copy_mode w nf err w' :
  rename_file pf src dst copy_mode w = Returned (true, Some nf, err) w' →
  (suffix src ≠ "" → suffix (dst </> nf) = suffix src) ∧
  (Str.mem "."%char (name src) = false → suffix (dst </> nf) = "") ∧
  (∀ rest, name src = "." +:+ rest → rest ≠ "" →
           Str.mem "."%char rest = false →
           suffix src = "" ∧ suffix (dst </> nf) = "." +:+ rest).
Proof.
  intros H. apply rename_file_name in H as (t & m & ->).
  assert (format_datetime_prefix t ≠ "") as Hp.
  { intros E. pose proof (format_datetime_prefix_nonempty t) as L.
    rewrite E in L. simpl in L. lia. }
  pose proof (suffix_of_tried dst (format_datetime_prefix t) (name src) m
                Hp (format_datetime_prefix_no_dot t)) as Hs.
  split_and!.
  - unfold suffix at 1 3.
    destruct (Str.rsplit_dot (name src)) as [[b e]|]; [|done].
    destruct (bool_decide (b = "")); [done |]. simpl.
    case_bool_decide as He; [done |]. intros _. by apply Hs.
  - intros Hm. apply StrFacts.rsplit_dot_None in Hm. by rewrite Hm in Hs.
  - intros rest Hn Hr Hm.
    assert (Str.rsplit_dot (name src) = Some ("", rest)) as R.
    { rewrite Hn. by apply (StrFacts.rsplit_dot_app ""). }
    rewrite R in Hs. split; [|by apply Hs].
    unfold suffix. by rewrite R.
Qed.

End NewName.

(** The report that collides keeps [.pdf] under its numbered name. *)
Lemma X9_numbered_report_is_pdf :
  suffix ["out"; "250808_143022_report_001.pdf"] = ".pdf".
Proof.
  pose proof (rename_file_places reference_platform ["in"; "report.pdf"]
                ["out"] false collision_world collision_tree
                [Byte.x25; Byte.x50] sample_stat 1) as Hrun.
  cbv zeta in Hrun.
  specialize (Hrun ltac:(vm_compute; reflexivity)
                   ltac:(vm_compute; reflexivity)).
  assert (∀ k, k < 1 →
    is_Some (files collision_world !!
      (["out"] </> tried_name (format_datetime_prefix
         (resolved_time sample_stat)) (name ["in"; "report.pdf"]) k))) as Hocc.
  { intros k Hk. replace k with 0 by lia. vm_compute. eauto. }
  specialize (Hrun Hocc ltac:(vm_compute; reflexivity)).
  destruct (X9_extension_kept reference_platform ["in"; "report.pdf"]
              ["out"] false collision_world _ _ _ Hrun) as (Hkeep & _).
  apply Hkeep. vm_compute. discriminate.
Defined.

(** ** Batches of regular files *)

Section RegularBatch.

Variables (pf : Platform) (dst : path) (copy_mode : bool).

(** The batch loop on distinct regular files, the destination directory
    being one that can be established: every file is placed; what is not
    in the batch is untouched (in copy mode, nothing is touched); each
    content arrives under the name logged for it and is still there at the
    end; nothing else appears; in move mode the sources are gone. *)
Lemma for_files_regular batch : ∀ w sc ec fs1,
  mkdir_parents pf (rev dst) (files w) = inr fs1 →
  NoDup batch →
  (∀ f, f ∈ batch → is_file (files w) f = true) →
  ∃ w' names,
    for_files pf batch dst copy_mode sc ec w =
      Returned (sc + length batch, ec) w' ∧
    length names = length batch ∧
    log w' = log w ++
      zip_with (λ f nf, transfer_line copy_mode (name f) nf) batch names ∧
    (∀ p nd, files w !! p = Some nd → copy_mode = true ∨ p ∉ batch →
             files w' !! p = Some nd) ∧
    (∀ i f nf, batch !! i = Some f → names !! i = Some nf →
       ∃ data st st' m,
         files w !! f = Some (File data st) ∧
         nf = tried_name (format_datetime_prefix (resolved_time st))
                (name f) m ∧
         files w' !! (dst </> nf) = Some (File data st')) ∧
    (∀ p, files w !! p = None → is_Some (files w' !! p) →
          (∃ nf, nf ∈ names ∧ p = dst </> nf) ∨ p `prefix_of` dst) ∧
    (copy_mode = false →
     ∀ f, f ∈ batch → (∀ nf, f ≠ dst </> nf) → ¬ f `prefix_of` dst →
          files w' !! f = None) ∧
    NoDup names ∧
    (∀ nf, nf ∈ names →
       files w !! (dst </> nf) = None ∨
       (copy_mode = false ∧ dst </> nf ∈ batch)).
Proof.
  induction batch as [|s rest IH]; intros w sc ec fs1 Hmk ND Hfiles.
  - exists w, []. simpl. rewrite Nat.add_0_r, app_nil_r.
    split_and!; try done.
    + intros p Hp [x Hx]. congruence.
    + intros _ f Hf. by apply not_elem_of_nil in Hf.
    + constructor.
    + intros nf Hnf. by apply not_elem_of_nil in Hnf.
  - apply NoDup_cons in ND as [Hs_rest ND].
    destruct (proj1 (is_file_Some _ _) (Hfiles s ltac:(by left)))
      as (data & st & Hs).
    destruct (mkdir_parents_inr pf _ _ _ Hmk) as (Hd & Keep & Add & _).
    rewrite rev_involutive in Hd, Add.
    destruct (rename_file_regular pf s dst copy_mode w fs1 data st Hmk Hs)
      as (m & _ & Hfree & Hfree1 & Hrun). cbv zeta in *.
    set (nf := tried_name (format_datetime_prefix (resolved_time st))
                 (name s) m) in *.
    set (fs2 := if copy_mode
                then <[dst </> nf := File data (fresh_stat pf fs1)]> fs1
                else <[dst </> nf := File data (moved_stat pf fs1 st)]>
                       (delete s fs1)) in *.
    set (w1 := {| files := fs2;
                  log := log w ++ [transfer_line copy_mode (name s) nf] |})
      in *.
    assert (∀ p nd, files w !! p = Some nd → copy_mode = true ∨ p ≠ s →
                    fs2 !! p = Some nd) as Keep2.
    { intros p nd Hp Hside.
      assert (p ≠ dst </> nf) as Hpt by congruence.
      apply Keep in Hp. subst fs2. destruct copy_mode.
      - by rewrite lookup_insert_ne.
      - destruct Hside as [|Hps]; [done |].
        by rewrite lookup_insert_ne, lookup_delete_ne. }
    assert (∃ st2, fs2 !! (dst </> nf) = Some (File data st2)) as [st2 Hnew].
    { subst fs2. destruct copy_mode; rewrite lookup_insert_eq; by eauto. }
    assert (∀ p, files w !! p = None → is_Some (fs2 !! p) →
                 p = dst </> nf ∨ p `prefix_of` dst) as Add2.
    { intros p Hp Hsome.
      destruct (decide (p = dst </> nf)) as [|Hne]; [by left |]. right.
      apply Add; [done |]. subst fs2. destruct copy_mode.
      - by rewrite lookup_insert_ne in Hsome.
      - rewrite lookup_insert_ne in Hsome by done.
        destruct (decide (s = p)) as [->|Hsp].
        + rewrite lookup_delete_eq in Hsome. by destruct Hsome.
        + by rewrite lookup_delete_ne in Hsome. }
    assert (is_dir fs2 dst = true) as Hd2.
    { apply is_dir_Some in Hd as [std Hd]. apply is_dir_Some. exists std.
      assert (dst ≠ dst </> nf) as Hne.
      { intros E. apply (f_equal length) in E.
        rewrite length_app in E. simpl in E. lia. }
      subst fs2. destruct copy_mode.
      - by rewrite lookup_insert_ne.
      - rewrite lookup_insert_ne, lookup_delete_ne; [done | | done].
        intros ->. apply Keep in Hs. congruence. }
    assert (∀ f, f ∈ rest → f ≠ s) as Hrest_s by (intros f Hf ->; done).
    assert (∀ f, f ∈ rest → is_Some (files w !! f)) as Hrest_w.
    { intros f Hf. destruct (proj1 (is_file_Some _ _)
        (Hfiles f ltac:(by right))) as (? & ? & ->). by eauto. }
    destruct (IH w1 (S sc) ec fs2)
      as (w' & names & Hrun' & Hlen & Hlog & Hframe & Harr & Hnew' & Hgone
            & Hnd & Hwhere).
    + apply mkdir_parents_existing. by rewrite rev_involutive.
    + done.
    + intros f Hf.
      destruct (proj1 (is_file_Some _ _) (Hfiles f ltac:(by right)))
        as (data' & st' & Hf').
      apply is_file_Some. exists data', st'. simpl.
      apply Keep2; [done |]. right. by apply Hrest_s.
    + exists w', (nf :: names). split_and!.
      * simpl. unfold mbind, M_bind. rewrite Hrun.
        replace (sc + S (length rest)) with (S sc + length rest) by lia.
        exact Hrun'.
      * simpl. by rewrite Hlen.
      * rewrite Hlog. simpl. by rewrite <- app_assoc.
      * intros p nd Hp Hside. apply Hframe.
        -- simpl. apply Keep2; [done |].
           destruct Hside as [|Hnin]; [by left |]. right.
           intros ->. apply Hnin. by left.
        -- destruct Hside as [|Hnin]; [by left |]. right.
           intros Hin. apply Hnin. by right.
      * intros i f nf' Hi Hn. destruct i as [|i]; simpl in Hi, Hn.
        -- injection Hi as <-. injection Hn as <-.
           exists data, st, st2, m. split_and!; [done | done |].
           apply Hframe; [done |]. right. intros Hin.
           destruct (Hrest_w _ Hin) as [x Hx]. congruence.
        -- destruct (Harr i f nf' Hi Hn)
             as (data' & st' & st'' & m' & Hf1 & Hnf & Hend).
           exists data', st', st'', m'. split_and!; [| done | done].
           assert (f ∈ rest) as Hin by (by eapply list_elem_of_lookup_2).
           destruct (proj1 (is_file_Some _ _) (Hfiles f ltac:(by right)))
             as (data0 & st0 & Hf0).
           pose proof (Keep2 _ _ Hf0 (or_intror (Hrest_s _ Hin))) as Hf2.
           simpl in Hf1. congruence.
      * intros p Hp Hsome.
        destruct (fs2 !! p) as [x|] eqn:E.
        -- destruct (Add2 p Hp ltac:(by eauto)) as [->|Hpre];
             [left; exists nf; split; [by left | done] | by right].
        -- destruct (Hnew' p E Hsome) as [(nf' & Hin & ->)|Hpre];
             [left; exists nf'; split; [by right | done] | by right].
      * intros Hmove f Hf Hchild Hpre.
        apply elem_of_cons in Hf as [->|Hf]; [|by apply Hgone].
        assert (fs2 !! s = None) as Hs2.
        { subst fs2. rewrite Hmove.
          rewrite lookup_insert_ne by (by apply not_eq_sym, Hchild).
          apply lookup_delete_eq. }
        apply eq_None_not_Some. intros Hsome.
        destruct (Hnew' s Hs2 Hsome) as [(nf' & _ & E)|Hp']; [|done].
        by apply (Hchild nf').
      * apply NoDup_cons. split; [|done]. intros Hin.
        destruct (Hwhere nf Hin) as [Hnone|[_ Hin']].
        -- simpl in Hnone. congruence.
        -- destruct (Hrest_w _ Hin') as [x Hx]. congruence.
      * intros nf' Hin. apply elem_of_cons in Hin as [->|Hin]; [by left |].
        destruct (Hwhere nf' Hin) as [Hnone|[Hmove Hin']].
        -- simpl in Hnone.
           destruct (files w !! (dst </> nf')) as [x|] eqn:E; [|by left].
           right. destruct copy_mode.
           ++ rewrite (Keep2 _ _ E (or_introl eq_refl)) in Hnone. done.
           ++ split; [done |].
              destruct (decide (dst </> nf' = s)) as [->|Hne]; [by left |].
              rewrite (Keep2 _ _ E (or_intror Hne)) in Hnone. done.
        -- right. split; [done | by right].
Qed.

(** When the destination directory cannot be established, every file of
    the batch fails with that error and the tree stays as it is. *)
Lemma for_files_all_fail batch e : ∀ w sc ec,
  mkdir_parents pf (rev dst) (files w) = inl e →
  ∃ w',
    for_files pf batch dst copy_mode sc ec w =
      Returned (sc, ec + length batch) w' ∧
    files w' = files w ∧
    log w' = log w ++
      mjoin ((λ f, [(ERROR, Failure (ErrorProcessing f e));
                    (ERROR, FailedToProcess (name f)
                              (Some (ErrorProcessing f e)))]) <$> batch).
Proof.
  induction batch as [|f rest IH]; intros w sc ec Hmk.
  - exists w. simpl. by rewrite Nat.add_0_r, app_nil_r.
  - set (w1 := {| files := files w;
                  log := (log w ++ [(ERROR, Failure (ErrorProcessing f e))])
                    ++ [(ERROR, FailedToProcess (name f)
                                  (Some (ErrorProcessing f e)))] |}).
    destruct (IH w1 sc (S ec) Hmk) as (w' & Hrun & Hfiles & Hlog).
    exists w'. split_and!.
    + cbn [for_files]. unfold mbind, M_bind at 1.
      rewrite rename_file_unfold. cbv zeta. rewrite Hmk.
      unfold mbind, M_bind at 1. unfold logging at 1. cbn [files log].
      fold w1. rewrite Hrun. f_equal. f_equal. simpl. lia.
    + done.
    + rewrite Hlog. simpl. by rewrite <- !app_assoc.
Qed.

End RegularBatch.

(** ** [process_directory] on a whole directory *)

Section WholeDirectory.

Variable pf : Platform.

Lemma filter_extensions_sublist exts (l : list path) :
  filter_extensions exts l `sublist_of` l.
Proof.
  unfold filter_extensions. destruct exts as [[|e exts]|]; [done | | done].
  apply sublist_filter.
Qed.

Lemma considered_NoDup fs input_path exts :
  NoDup (considered pf fs input_path exts).
Proof.
  unfold considered. eapply sublist_NoDup; [|apply filter_extensions_sublist].
  apply NoDup_filter.
  assert (Inj (=) (=) (λ n : string, input_path </> n)).
  { intros n n' E. apply app_inv_head in E. by injection E. }
  apply (NoDup_fmap_2 _), scandir_NoDup.
Qed.

Lemma considered_regular fs input_path exts f :
  f ∈ considered pf fs input_path exts →
  is_file fs f = true ∧ ∃ n, f = input_path </> n.
Proof.
  unfold considered. intros Hin.
  eapply elem_of_sublist in Hin; [|apply filter_extensions_sublist].
  apply list_elem_of_filter in Hin as [Hf Hin]. apply Is_true_true in Hf.
  apply list_elem_of_fmap in Hin as (n & -> & _). by eauto.
Qed.

Lemma tree_shaped_ancestors fs (d p : path) :
  tree_shaped fs → is_dir fs d = true → p `prefix_of` d → is_dir fs p = true.
Proof.
  intros T Hd [ext ->]. induction ext as [|n ext IH] using rev_ind.
  - by rewrite app_nil_r in Hd.
  - rewrite app_assoc in Hd. apply IH, (T _ n).
    apply is_dir_Some in Hd as [st Hd]. by eauto.
Qed.

(** X10. When the output directory can be established, a batch has no
    failure: every file considered is transferred, the closing line counts
    them all as successes, the names given are pairwise distinct, and at
    the end each content is in the output directory under the name logged
    for it, which is one of the names tried for that file. *)
Theorem X10_batch_transfers_everything
    w input_path output_path copy_mode exts st fs1 :
  files w !! input_path = Some (Dir st) →
  mkdir_parents pf (rev output_path) (files w) = inr fs1 →
  let batch := considered pf (files w) input_path exts in
  batch ≠ [] →
  ∃ w' names,
    process_directory pf input_path output_path copy_mode exts w =
      Returned () w' ∧
    length names = length batch ∧
    NoDup names ∧
    log w' = log w ++
      [(INFO, FoundFiles (length batch))] ++
      zip_with (λ f nf, transfer_line copy_mode (name f) nf) batch names ++
      [(INFO, ProcessingComplete (length batch) 0)] ∧
    (∀ i f nf, batch !! i = Some f → names !! i = Some nf →
       ∃ data st0 st' m,
         files w !! f = Some (File data st0) ∧
         nf = tried_name (format_datetime_prefix (resolved_time st0))
                (name f) m ∧
         files w' !! (output_path </> nf) = Some (File data st')).
Proof.
  intros Hd Hmk batch Hne.
  rewrite (process_directory_unfold pf _ _ _ _ _ st Hd). fold batch.
  destruct (for_files_regular pf output_path copy_mode batch
              {| files := files w;
                 log := log w ++ [(INFO, FoundFiles (length batch))] |}
              0 0 fs1 Hmk (considered_NoDup _ _ _))
    as (w1 & names & Hrun & Hlen & Hlog & _ & Harr & _ & _ & Hnd & _).
  { intros f Hf. by apply considered_regular in Hf as [? _]. }
  exists {| files := files w1;
            log := log w1 ++ [(INFO, ProcessingComplete (length batch) 0)] |},
    names.
  split_and!; [| done | done | | done].
  - unfold process_files. destruct batch as [|f rest] eqn:Hb; [done |].
    unfold mbind, M_bind at 1. unfold logging at 1.
    unfold mbind, M_bind at 1. by rewrite Hrun.
  - cbn [log]. rewrite Hlog. cbn [log]. by rewrite <- !app_assoc.
Qed.

(** X11. A batch changes nothing but the files it considers: every other
    entry of the tree is the same afterwards, whether the files could be
    transferred or not; in copy mode every entry is. *)
Theorem X11_batch_frame w input_path output_path copy_mode exts st :
  files w !! input_path = Some (Dir st) →
  ∃ w',
    process_directory pf input_path output_path copy_mode exts w =
      Returned () w' ∧
    ∀ p nd, files w !! p = Some nd →
      copy_mode = true ∨ p ∉ considered pf (files w) input_path exts →
      files w' !! p = Some nd.
Proof.
  intros Hd. rewrite (process_directory_unfold pf _ _ _ _ _ st Hd).
  set (batch := considered pf (files w) input_path exts).
  assert (NoDup batch) as ND by apply considered_NoDup.
  assert (∀ f, f ∈ batch → is_file (files w) f = true) as Hfiles.
  { intros f Hf. by apply considered_regular in Hf as [? _]. }
  destruct batch as [|f rest] eqn:Hb; [by eexists |].
  unfold process_files. unfold mbind, M_bind at 1. unfold logging at 1.
  unfold mbind, M_bind at 1.
  set (w0 := {| files := files w;
                log := log w ++ [(INFO, FoundFiles (length (f :: rest)))] |}).
  destruct (mkdir_parents pf (rev output_path) (files w0)) as [e|fs1] eqn:Hmk.
  - destruct (for_files_all_fail pf output_path copy_mode (f :: rest) e
                w0 0 0 Hmk) as (w1 & -> & Hsame & _).
    eexists. split; [done |]. intros p nd Hp _. cbn [files].
    by rewrite Hsame.
  - destruct (for_files_regular pf output_path copy_mode (f :: rest)
                w0 0 0 fs1 Hmk ND Hfiles)
      as (w1 & names & -> & _ & _ & Hframe & _).
    eexists. split; [done |]. intros p nd Hp Hside. cbn [files].
    by apply Hframe.
Qed.

(** X12. In move mode, with an output directory that can be established
    and is not the input directory, no file considered is left in the
    input directory. *)
Theorem X12_move_empties_input w input_path output_path exts st fs1 :
  tree_shaped (files w) →
  files w !! input_path = Some (Dir st) →
  mkdir_parents pf (rev output_path) (files w) = inr fs1 →
  input_path ≠ output_path →
  ∃ w',
    process_directory pf input_path output_path false exts w =
      Returned () w' ∧
    ∀ f, f ∈ considered pf (files w) input_path exts →
         files w' !! f = None.
Proof.
  intros T Hd Hmk Hio. rewrite (process_directory_unfold pf _ _ _ _ _ st Hd).
  set (batch := considered pf (files w) input_path exts).
  assert (NoDup batch) as ND by apply considered_NoDup.
  assert (∀ f, f ∈ batch →
            is_file (files w) f = true ∧ ∃ n, f = input_path </> n) as Hreg.
  { intros f Hf. by apply considered_regular in Hf. }
  destruct batch as [|f rest] eqn:Hb.
  { eexists. split; [done |]. intros f Hf. by apply not_elem_of_nil in Hf. }
  unfold process_files. unfold mbind, M_bind at 1. unfold logging at 1.
  unfold mbind, M_bind at 1.
  set (w0 := {| files := files w;
                log := log w ++ [(INFO, FoundFiles (length (f :: rest)))] |}).
  destruct (for_files_regular pf output_path false (f :: rest)
              w0 0 0 fs1 Hmk ND)
    as (w1 & names & -> & _ & _ & _ & _ & _ & Hgone & _).
  { intros g Hg. by apply Hreg in Hg as [? _]. }
  eexists. split; [done |]. intros g Hg. cbn [files].
  destruct (Hreg g Hg) as (Hfile & n & ->).
  apply (Hgone eq_refl); [done | |].
  - intros nf E. apply app_inj_tail in E as [? _]. done.
  - intros Hpre.
    destruct (mkdir_parents_inr pf _ _ _ Hmk) as (Hdir & Keep & _ & T1).
    rewrite rev_involutive in Hdir.
    pose proof (tree_shaped_ancestors fs1 _ _ (T1 T) Hdir Hpre) as Hdg.
    apply is_dir_Some in Hdg as [sg Hdg].
    apply is_file_Some in Hfile as (data & sf & Hfile).
    apply Keep in Hfile. simpl in Hfile. congruence.
Qed.

(** X13. When the output directory cannot be established (the path is a
    regular file, say), every file considered fails with that error, the
    closing line counts them all as errors, and the tree is as it was. *)
Theorem X13_unusable_output_fails_all
    w input_path output_path copy_mode exts st e :
  files w !! input_path = Some (Dir st) →
  mkdir_parents pf (rev output_path) (files w) = inl e →
  let batch := considered pf (files w) input_path exts in
  batch ≠ [] →
  process_directory pf input_path output_path copy_mode exts w =
  Returned ()
    {| files := files w;
       log := log w ++
         [(INFO, FoundFiles (length batch))] ++
         mjoin ((λ f, [(ERROR, Failure (ErrorProcessing f e));
                       (ERROR, FailedToProcess (name f)
                                 (Some (ErrorProcessing f e)))]) <$> batch) ++
         [(INFO, ProcessingComplete 0 (length batch))] |}.
Proof.
  intros Hd Hmk batch Hne.
  rewrite (process_directory_unfold pf _ _ _ _ _ st Hd). fold batch.
  destruct (for_files_all_fail pf output_path copy_mode batch e
              {| files := files w;
                 log := log w ++ [(INFO, FoundFiles (length batch))] |}
              0 0 Hmk) as (w1 & Hrun & Hsame & Hlog).
  unfold process_files. destruct batch as [|f rest] eqn:Hb; [done |].
  unfold mbind, M_bind at 1. unfold logging at 1.
  unfold mbind, M_bind at 1. rewrite Hrun. unfold logging.
  cbn [files log] in *. rewrite Hsame, Hlog. by rewrite <- !app_assoc.
Qed.

End WholeDirectory.

(** The three files of the sample directory, moved to [out]. *)
Lemma X10_sample_batch_all_placed :
  ∃ w' (names : list string),
    process_directory reference_platform ["in"] ["out"] false None
      filter_world = Returned () w' ∧
    length names = 3 ∧ NoDup names.
Proof.
  destruct (X10_batch_transfers_everything reference_platform filter_world
              ["in"] ["out"] false None sample_stat filter_tree)
    as (w' & names & Hrun & Hlen & Hnd & _).
  - vm_compute. reflexivity.
  - vm_compute. reflexivity.
  - intros E. vm_compute in E. discriminate E.
  - exists w', names. split_and!; [exact Hrun | exact Hlen | exact Hnd].
Defined.

(** The directory [old.txt] of the sample directory is not touched. *)
Lemma X11_old_txt_stays :
  ∃ w',
    process_directory reference_platform ["in"] ["out"] false None
      filter_world = Returned () w' ∧
    files w' !! ["in"; "old.txt"] = Some sample_dir.
Proof.
  destruct (X11_batch_frame reference_platform filter_world ["in"] ["out"]
              false None sample_stat ltac:(vm_compute; reflexivity))
    as (w' & Hrun & Hframe).
  exists w'. split; [exact Hrun |].
  apply Hframe; [vm_compute; reflexivity |]. right.
  intros Hin. apply (bool_decide_pack _) in Hin. vm_compute in Hin.
  exact Hin.
Defined.

(** After the move, [a.txt] is not in the sample directory. *)
Lemma X12_a_txt_gone :
  ∃ w',
    process_directory reference_platform ["in"] ["out"] false None
      filter_world = Returned () w' ∧
    files w' !! ["in"; "a.txt"] = None.
Proof.
  destruct (X12_move_empties_input reference_platform filter_world ["in"]
              ["out"] None sample_stat filter_tree)
    as (w' & Hrun & Hgone).
  - apply tree_shapedb_sound. vm_compute. reflexivity.
  - vm_compute. reflexivity.
  - vm_compute. reflexivity.
  - discriminate.
  - exists w'. split; [exact Hrun |]. apply Hgone.
    apply (bool_decide_unpack _). vm_compute. exact I.
Defined.

(** The sample directory processed with the file [in/b.pdf] given as
    output directory. *)
Lemma X13_output_is_b_pdf :
  ∃ lg,
    process_directory reference_platform ["in"] ["in"; "b.pdf"] false None
      filter_world =
    Returned () {| files := filter_tree; log := lg |} ∧
    last lg = Some (INFO, ProcessingComplete 0 3).
Proof.
  eexists. split.
  - apply (X13_unusable_output_fails_all reference_platform filter_world
             ["in"] ["in"; "b.pdf"] false None sample_stat FileExistsError).
    + vm_compute. reflexivity.
    + vm_compute. reflexivity.
    + intros E. vm_compute in E. discriminate E.
  - vm_compute. reflexivity.
Defined.

(** ** [main] and the edges of [process_directory] *)

Section Edges.

Variable pf : Platform.



(** X16. An input directory that holds no regular file (it is empty, or
    holds directories only) gives a warning and nothing else: no
    subdirectory is entered, the tree is unchanged and the output directory
    is not created. *)
Theorem X16_no_regular_file input_path output_path copy_mode exts w st :
  files w !! input_path = Some (Dir st) →
  (∀ n, is_file (files w) (input_path </> n) = false) →
  process_directory pf input_path output_path copy_mode exts w =
  Returned ()
    {| files := files w; log := log w ++ [(WARNING, NoFilesFound)] |}.
Proof.
  intros Hd Hnone. rewrite (process_directory_unfold pf _ _ _ _ _ st Hd).
  assert (considered pf (files w) input_path exts = []) as ->; [|done].
  destruct (considered _ _ _ _) as [|f rest] eqn:E; [done |].
  destruct (considered_regular pf (files w) input_path exts f)
    as (Hf & n & ->); [rewrite E; by left |].
  by rewrite Hnone in Hf.
Qed.

End Edges.



(** The empty directory [out] of the sample tree as input. *)
Lemma X16_empty_out :
  process_directory reference_platform ["out"] ["elsewhere"] false None
    sample_world =
  Returned ()
    {| files := sample_tree; log := [(WARNING, NoFilesFound)] |}.
Proof.
  apply (X16_no_regular_file reference_platform ["out"] ["elsewhere"] false
           None sample_world sample_stat).
  - vm_compute. reflexivity.
  - intros n. unfold is_file, sample_world, sample_tree. cbn [files].
    by rewrite !lookup_insert_ne, lookup_empty by discriminate.
Defined.

(** ** Filter entries without the dot *)

Section DotlessFilter.

Variable pf : Platform.




End DotlessFilter.


(** ** One file through [main], and one file copied twice *)

Section Composition.

Variable pf : Platform.


(** X19. Copying the same file twice into a directory where its plain and
    its first numbered name are free makes two files: the first call takes
    the plain name, the second the name with counter 1, both hold the
    content of the source, and the source is still there. *)
Theorem X19_copy_twice src dst w fs1 data st :
  mkdir_parents pf (rev dst) (files w) = inr fs1 →
  files w !! src = Some (File data st) →
  let tried :=
    tried_name (format_datetime_prefix (resolved_time st)) (name src) in
  files w !! (dst </> tried 0) = None →
  files w !! (dst </> tried 1) = None →
  ∃ w1 w2,
    rename_file pf src dst true w = Returned (true, Some (tried 0), None) w1 ∧
    rename_file pf src dst true w1 = Returned (true, Some (tried 1), None) w2 ∧
    (∃ st0, files w2 !! (dst </> tried 0) = Some (File data st0)) ∧
    (∃ st1, files w2 !! (dst </> tried 1) = Some (File data st1)) ∧
    files w2 !! src = Some (File data st).
Proof.
  intros Hmk Hsrc tried Hfree0 Hfree1.
  destruct (mkdir_parents_inr pf _ _ _ Hmk) as (Hd & Keep & Add & _).
  rewrite rev_involutive in Hd, Add.
  pose proof (rename_file_places pf src dst true w fs1 data st 0 Hmk Hsrc)
    as Hrun1. cbv zeta in Hrun1. fold tried in Hrun1.
  specialize (Hrun1 ltac:(intros; lia) Hfree0).
  set (fs2 := <[dst </> tried 0 := File data (fresh_stat pf fs1)]> fs1) in *.
  set (w1 := {| files := fs2;
                log := log w ++ [transfer_line true (name src) (tried 0)] |})
    in *.
  assert (src ≠ dst </> tried 0) as Hne0 by congruence.
  assert (src ≠ dst </> tried 1) as Hne1 by congruence.
  assert (dst </> tried 0 ≠ dst </> tried 1) as Hne01.
  { intros E. apply app_inv_head in E.
    assert (tried 0 = tried 1) as E' by congruence.
    by apply tried_name_inj in E'. }
  assert (fs2 !! src = Some (File data st)) as Hsrc2.
  { subst fs2. rewrite lookup_insert_ne by done. by apply Keep. }
  assert (is_dir fs2 dst = true) as Hd2.
  { apply is_dir_Some in Hd as [sd Hd]. apply is_dir_Some. exists sd.
    subst fs2. rewrite lookup_insert_ne; [done |].
    intros E. apply (f_equal length) in E. rewrite length_app in E.
    simpl in E. lia. }
  pose proof (rename_file_places pf src dst true w1 fs2 data st 1) as Hrun2.
  cbv zeta in Hrun2. fold tried in Hrun2.
  specialize (Hrun2 ltac:(apply mkdir_parents_existing;
                          by rewrite rev_involutive) Hsrc2).
  assert (∀ k, k < 1 → is_Some (files w1 !! (dst </> tried k))) as Hocc.
  { intros k Hk. replace k with 0 by lia. subst w1 fs2. cbn [files].
    rewrite lookup_insert_eq. by eauto. }
  assert (files w1 !! (dst </> tried 1) = None) as Hfree1'.
  { subst w1 fs2. cbn [files]. rewrite lookup_insert_ne by done.
    apply eq_None_not_Some. intros Hs.
    destruct (Add _ Hfree1 Hs) as [Pre _]. by apply child_not_prefix in Pre. }
  specialize (Hrun2 Hocc Hfree1').
  eexists w1, _. split_and!; [exact Hrun1 | exact Hrun2 | | |];
    subst w1; cbn [files].
  - rewrite lookup_insert_ne by done. subst fs2.
    rewrite lookup_insert_eq. by eauto.
  - rewrite lookup_insert_eq. by eauto.
  - by rewrite lookup_insert_ne.
Qed.

End Composition.


(** [report.pdf] copied twice into the empty [out]. *)
Lemma X19_report_copied_twice :
  ∃ w1 w2,
    rename_file reference_platform ["in"; "report.pdf"] ["out"] true
      sample_world =
      Returned (true, Some "250808_143022_report.pdf", None) w1 ∧
    rename_file reference_platform ["in"; "report.pdf"] ["out"] true w1 =
      Returned (true, Some "250808_143022_report_001.pdf", None) w2 ∧
    files w2 !! ["in"; "report.pdf"] =
    Some (File [Byte.x25; Byte.x50] sample_stat).
Proof.
  destruct (X19_copy_twice reference_platform ["in"; "report.pdf"] ["out"]
              sample_world sample_tree [Byte.x25; Byte.x50] sample_stat)
    as (w1 & w2 & Hrun1 & Hrun2 & _ & _ & Hsrc).
  - vm_compute. reflexivity.
  - vm_compute. reflexivity.
  - vm_compute. reflexivity.
  - vm_compute. reflexivity.
  - exists w1, w2. split_and!; [exact Hrun1 | exact Hrun2 | exact Hsrc].
Defined.

(** ** The order of the prefixes *)

Lemma ascii_compare_digit a b :
  a < 10 → b < 10 →
  Ascii.compare (Fmt.digit_char a) (Fmt.digit_char b) = (a ?= b).
Proof.
  intros Ha Hb.
  do 10 (destruct a as [|a];
         [do 10 (destruct b as [|b]; [reflexivity |]); lia |]).
  lia.
Qed.

Lemma compare_two_digits a b (x y : string) :
  a < 100 → b < 100 →
  String.compare (Fmt.two_digits a +:+ x) (Fmt.two_digits b +:+ y) =
  match a ?= b with
  | Eq => String.compare x y
  | c => c
  end.
Proof.
  intros Ha Hb.
  assert (∀ n z, Fmt.two_digits n +:+ z =
            String (Fmt.digit_char (n / 10))
              (String (Fmt.digit_char (n mod 10)) z)) as U by done.
  rewrite !U. cbn [String.compare].
  rewrite !ascii_compare_digit
    by (try apply Nat.Div0.div_lt_upper_bound;
        try apply Nat.mod_upper_bound; lia).
  pose proof (Nat.div_mod_eq a 10). pose proof (Nat.div_mod_eq b 10).
  pose proof (Nat.mod_upper_bound a 10 ltac:(lia)).
  pose proof (Nat.mod_upper_bound b 10 ltac:(lia)).
  destruct (Nat.compare_spec (a / 10) (b / 10));
    destruct (Nat.compare_spec (a mod 10) (b mod 10));
    destruct (Nat.compare_spec a b); try done; exfalso; try subst; lia.
Qed.

(** X20. The prefix is written from the largest unit to the smallest, in
    fields of fixed width: on valid datetimes, comparing two prefixes as
    strings gives the comparison of (year modulo 100, month, day, hour,
    minute, second) from the left, so that within a century names sort in
    the order of the creation times. *)
Theorem X20_prefixes_sort_by_time dt1 dt2 :
  valid_datetime dt1 → valid_datetime dt2 →
  String.compare (format_datetime_prefix dt1) (format_datetime_prefix dt2) =
  lex_compare (prefix_key dt1) (prefix_key dt2).
Proof.
  intros V1 V2. rewrite !format_datetime_prefix_layout by done.
  destruct V1 as (? & ? & ? & ? & ?), V2 as (? & ? & ? & ? & ?).
  pose proof (Nat.mod_upper_bound (year dt1) 100 ltac:(lia)).
  pose proof (Nat.mod_upper_bound (year dt2) 100 ltac:(lia)).
  assert (∀ x y : string,
    String.compare ("_" +:+ x) ("_" +:+ y) = String.compare x y) as Us
    by done.
  unfold prefix_layout, prefix_key. cbn [lex_compare].
  rewrite !compare_two_digits by lia. rewrite Us.
  rewrite !compare_two_digits by lia. done.
Qed.

(** The sample time comes before the later one, and so do the prefixes. *)
Lemma X20_sample_before_later :
  String.compare (format_datetime_prefix sample_time)
    (format_datetime_prefix sample_time_later) = Lt.
Proof.
  rewrite (X20_prefixes_sort_by_time sample_time sample_time_later).
  - vm_compute. reflexivity.
  - unfold valid_datetime. simpl. lia.
  - unfold valid_datetime. simpl. lia.
Defined.

(** ** When [main] lets an exception through *)

Section MainTotal.

Variable pf : Platform.




End MainTotal.

(** ** A directory as the source, in move mode *)

Section DirectorySource.

Variable pf : Platform.

#[local] Arguments while_exists : simpl never.

Lemma tree_shaped_above fs (p k : path) :
  tree_shaped fs → is_Some (fs !! k) → p `prefix_of` k → is_Some (fs !! p).
Proof.
  intros T Hk [ext ->]. induction ext as [|n ext IH] using rev_ind.
  - by rewrite app_nil_r in Hk.
  - rewrite app_assoc in Hk. apply IH.
    apply T, is_dir_Some in Hk as [st Hk]. by eauto.
Qed.

Lemma prefix_of_child (p d : path) (n : string) :
  p `prefix_of` d </> n → p `prefix_of` d ∨ p = d </> n.
Proof.
  intros [ext E]. destruct ext as [|x ext _] using rev_ind.
  - right. by rewrite app_nil_r in E.
  - left. rewrite app_assoc in E. apply app_inj_tail in E as [-> _].
    by exists ext.
Qed.

(** What was below a moved directory is below its new place. *)
Lemma move_tree_inside (src tgt : path) (fs : FileSystem) k nd :
  fs !! k = Some nd → src `prefix_of` k →
  move_tree src tgt fs !! rebase src tgt k = Some nd.
Proof.
  intros Hk Hpre. unfold move_tree. apply lookup_union_Some_l.
  apply elem_of_list_to_map_1.
  - rewrite <- list_fmap_compose.
    apply NoDup_fmap_2_strong; [|apply NoDup_map_to_list].
    intros [k1 v1] [k2 v2] H1 H2 E. simpl in E.
    apply elem_of_map_to_list, map_lookup_filter_Some in H1 as [L1 [r1 P1]].
    apply elem_of_map_to_list, map_lookup_filter_Some in H2 as [L2 [r2 P2]].
    simpl in P1, P2. subst k1 k2. unfold rebase in E.
    rewrite !drop_app_length in E. apply app_inv_head in E. subst r2.
    congruence.
  - apply list_elem_of_fmap. exists (k, nd). split; [done |].
    by apply elem_of_map_to_list, map_lookup_filter_Some.
Qed.

(** Nothing is left where a moved directory was. *)
Lemma move_tree_source_gone (src tgt : path) (fs : FileSystem) k :
  tree_shaped fs → fs !! tgt = None → ¬ src `prefix_of` tgt →
  src `prefix_of` k → move_tree src tgt fs !! k = None.
Proof.
  intros T Ht Hnot Hpre. unfold move_tree. apply lookup_union_None. split.
  - apply not_elem_of_list_to_map_1. intros Hin.
    apply list_elem_of_fmap in Hin as ([k' v'] & -> & Hin).
    apply list_elem_of_fmap in Hin as ([k0 v0] & [= -> ->] & Hin).
    apply elem_of_map_to_list, map_lookup_filter_Some in Hin as [L0 P0].
    simpl in *. unfold rebase in Hpre.
    assert (tgt `prefix_of` tgt ++ drop (length src) k0) as Ht'
      by (by apply prefix_app_r).
    destruct (prefix_weak_total _ _ _ Hpre Ht') as [H|H]; [done |].
    assert (is_Some (fs !! src)) as [x Hx]
      by (eapply tree_shaped_above; eauto).
    by rewrite (tree_shaped_below fs tgt src T Ht H) in Hx.
  - apply map_lookup_filter_None. right. intros x _. simpl. by intros H.
Qed.

(** X22. In move mode a source that is a directory is moved with all it
    holds, unless the destination lies in or below it: the directory is
    under a free name of the destination, every entry that was below the
    source is at the same place below the new name, and nothing is left at
    or below the source path. *)
Theorem X22_directory_moves_with_contents src dst w fs1 st :
  tree_shaped (files w) →
  mkdir_parents pf (rev dst) (files w) = inr fs1 →
  fs1 !! src = Some (Dir st) →
  ¬ src `prefix_of` dst →
  ∃ nf w',
    rename_file pf src dst false w = Returned (true, Some nf, None) w' ∧
    fs1 !! (dst </> nf) = None ∧
    (∃ st', files w' !! (dst </> nf) = Some (Dir st')) ∧
    (∀ rel nd, rel ≠ [] → fs1 !! (src ++ rel) = Some nd →
               files w' !! ((dst </> nf) ++ rel) = Some nd) ∧
    (∀ k, src `prefix_of` k → files w' !! k = None).
Proof.
  intros T Hmk Hsrc Hnot.
  destruct (mkdir_parents_inr pf _ _ _ Hmk) as (Hd & _ & _ & T1).
  rewrite rev_involutive in Hd. specialize (T1 T).
  destruct (while_exists_total fs1 dst
              (format_datetime_prefix (resolved_time st))
              (name src) (S (size fs1))) as [[nf c] L]; [lia |].
  pose proof (while_run_free _ _ _ _ _ _ _ _
                (while_exists_sound _ _ _ _ _ _ _ _ _ L)) as Hfree.
  set (fs' := <[src := Dir (moved_stat pf fs1 st)]> fs1).
  assert (src ≠ dst </> nf) as Hne by congruence.
  assert (¬ src `prefix_of` dst </> nf) as Hnot'.
  { intros H. by apply prefix_of_child in H as [?|?]. }
  assert (tree_shaped fs') as T' by (by eapply tree_shaped_restamp).
  assert (fs' !! (dst </> nf) = None) as Hfree'.
  { subst fs'. by rewrite lookup_insert_ne. }
  exists nf, {| files := move_tree src (dst </> nf) fs';
               log := log w ++ [transfer_line false (name src) nf] |}.
  split_and!.
  - rewrite rename_file_unfold. cbv zeta. rewrite Hmk, Hsrc.
    cbn [node_stat]. rewrite L.
    unfold move, real_dst. rewrite Hsrc, (is_dir_None _ _ Hfree).
    cbv iota. simpl andb. cbv iota. rewrite parent_child, Hd.
    simpl negb. cbv iota. rewrite (bool_decide_eq_false_2 _ Hnot').
    unfold is_file. by rewrite Hfree.
  - done.
  - exists (moved_stat pf fs1 st). cbn [files].
    pose proof (move_tree_inside src (dst </> nf) fs' src
                  (Dir (moved_stat pf fs1 st))) as H.
    unfold rebase in H. rewrite drop_all, app_nil_r in H.
    apply H; [|done]. subst fs'. apply lookup_insert_eq.
  - intros rel nd Hrel Hin. cbn [files].
    pose proof (move_tree_inside src (dst </> nf) fs' (src ++ rel) nd) as H.
    unfold rebase in H. rewrite drop_app_length in H.
    apply H; [|by apply prefix_app_r].
    subst fs'. rewrite lookup_insert_ne; [done |].
    intros E. apply Hrel. rewrite <- (app_nil_r src) in E at 1.
    by apply app_inv_head in E.
  - intros k Hk. cbn [files]. by apply move_tree_source_gone.
Qed.

End DirectorySource.

(** The sample directory [in] itself, moved into [out]: [a.txt] goes with
    it. *)
Lemma X22_in_moved_into_out :
  ∃ nf w',
    rename_file reference_platform ["in"] ["out"] false filter_world =
      Returned (true, Some nf, None) w' ∧
    files w' !! ((["out"] </> nf) ++ ["a.txt"]) =
      Some (sample_file [Byte.x61]) ∧
    files w' !! ["in"; "a.txt"] = None.
Proof.
  destruct (X22_directory_moves_with_contents reference_platform ["in"]
              ["out"] filter_world filter_tree sample_stat)
    as (nf & w' & Hrun & _ & _ & Hin & Hgone).
  - apply tree_shapedb_sound. vm_compute. reflexivity.
  - vm_compute. reflexivity.
  - vm_compute. reflexivity.
  - intros Hpre. apply (bool_decide_pack _) in Hpre. vm_compute in Hpre.
    exact Hpre.
  - exists nf, w'. split_and!; [exact Hrun | |].
    + apply (Hin ["a.txt"]); [discriminate | vm_compute; reflexivity].
    + apply Hgone. by exists ["a.txt"].
Defined.
